(** * HashGen: the snippet store and the signing engine

    A shallow embedding of [HashGen.py]: the [SnippetManager] store, the
    [CryptoEngine.execute_snippet] invocation boundary, the default
    snippet [generate] (ABA HMAC-SHA256) and the handlers of the window
    [App], with the properties of the specification stated over them.

    Conventions of the embedding.
    - A Python [str] is a Rocq [string]; each character stands for one code
      point in U+0000..U+00FF, so [String.length] is Python's [len] and
      [encode_utf8] is [str.encode('utf-8')] on that range.
    - A Python [bytes] is a [list byte]; a 32-bit word is a [Z] reduced
      modulo [2^32].
    - A Python [dict] is an insertion-ordered association list.
    - Code that may raise runs in the monad [M]: an outcome (a value or an
      exception) together with the log of HMAC computations performed.
    - [hashlib.sha256] and [hmac] are written out (FIPS 180-4, RFC 2104), so
      that digests compute.
    - The interpreter is a parameter ([Runtime]): what [exec] leaves in the
      namespace of a snippet, and what [traceback.format_exc] prints.
    - A file is given by the JSON document it holds; a file may be missing,
      hold text that is no JSON, or refuse to be written. What the store
      prints on a failure is not kept.
    - The window is given by what its widgets hold: an entry and a text box
      hold the text put into them, and a text box answers [get] with its
      text and a newline. [json.loads] is a parameter ([Json]), and so is
      what a text box shows for a value that is no string ([Tk]). The dialog
      that picks a snippet is given by the name it returns. The layout of
      the window and [_try_format_json], which needs the text [json.dumps]
      writes, are not embedded. *)

From Stdlib Require Import String Ascii List ZArith Lia Bool Strings.Byte.
From Stdlib Require Import DecimalString.
From ExtLib Require Import Structures.Monad Structures.MonadExc.
Import ListNotations.
Import MonadNotation.

#[local] Set Warnings "-register-all".
Local Open Scope monad_scope.
Local Open Scope list_scope.
Local Open Scope string_scope.

(** ** Bytes and 32-bit words *)

Module Bytes.
Local Open Scope list_scope.

Definition bytes := list byte.

Definition byte_to_Z (b : byte) : Z := Z.of_N (Byte.to_N b).

Definition byte_of_Z (z : Z) : byte :=
  match Byte.of_N (Z.to_N (z mod 256)) with
  | Some b => b
  | None => x00
  end.

Definition w32 (x : Z) : Z := x mod 2 ^ 32.

Definition add32 (x y : Z) : Z := w32 (x + y).

(** Big-endian split of a word into [n] bytes, most significant first. *)
Fixpoint be_bytes (n : nat) (x : Z) : bytes :=
  match n with
  | O => []
  | S k => byte_of_Z (Z.shiftr x (8 * Z.of_nat k)) :: be_bytes k x
  end.

(** Big-endian value of a byte sequence. *)
Definition be_value (bs : bytes) : Z :=
  fold_left (fun acc b => Z.lor (Z.shiftl acc 8) (byte_to_Z b)) bs 0%Z.

Definition hex_digit (n : Z) : ascii :=
  if (n <? 10)%Z then ascii_of_nat (Z.to_nat (48 + n))
  else ascii_of_nat (Z.to_nat (87 + n)).

(** [bytes.hex()]: two lower-case hexadecimal digits per byte. *)
Fixpoint hex (bs : bytes) : string :=
  match bs with
  | [] => EmptyString
  | b :: rest =>
      String (hex_digit (Z.shiftr (byte_to_Z b) 4))
        (String (hex_digit (Z.land (byte_to_Z b) 15)) (hex rest))
  end.

Definition xor_byte (k : Z) (b : byte) : byte :=
  byte_of_Z (Z.lxor (byte_to_Z b) k).

End Bytes.

(** ** SHA-256 (FIPS 180-4) and HMAC (RFC 2104), as [hashlib] and [hmac]
    compute them *)

Module SHA256.
Import Bytes.
Local Open Scope Z_scope.
Local Open Scope list_scope.

Definition rotr (n x : Z) : Z :=
  Z.lor (Z.shiftr x n) (w32 (Z.shiftl x (32 - n))).

Definition ch (x y z : Z) : Z :=
  Z.lxor (Z.land x y) (Z.land (Z.lxor x 0xFFFFFFFF) z).

Definition maj (x y z : Z) : Z :=
  Z.lxor (Z.lxor (Z.land x y) (Z.land x z)) (Z.land y z).

Definition big_sigma0 (x : Z) : Z := Z.lxor (Z.lxor (rotr 2 x) (rotr 13 x)) (rotr 22 x).
Definition big_sigma1 (x : Z) : Z := Z.lxor (Z.lxor (rotr 6 x) (rotr 11 x)) (rotr 25 x).
Definition small_sigma0 (x : Z) : Z := Z.lxor (Z.lxor (rotr 7 x) (rotr 18 x)) (Z.shiftr x 3).
Definition small_sigma1 (x : Z) : Z := Z.lxor (Z.lxor (rotr 17 x) (rotr 19 x)) (Z.shiftr x 10).

(** Trial division. *)
Definition is_prime (n : Z) : bool :=
  (1 <? n) && forallb (fun d => (n <? d * d) || negb (n mod d =? 0))
                      (map Z.of_nat (seq 2 (Z.to_nat n - 2))).

(** The primes below [bound], in order. *)
Definition primes_below (bound : nat) : list Z :=
  filter is_prime (map Z.of_nat (seq 2 (bound - 2))).

(** The integer cube root of [n] on [bits] bits, found bit by bit. *)
Definition cube_root (bits : nat) (n : Z) : Z :=
  fold_left (fun r b => let r' := r + 2 ^ Z.of_nat b in
                        if r' * r' * r' <=? n then r' else r)
            (rev (seq 0 bits)) 0.

(** The first 32 bits of the fractional part of the cube root of [p]. *)
Definition cube_root_fraction (p : Z) : Z := w32 (cube_root 36 (p * 2 ^ 96)).

(** The first 32 bits of the fractional part of the square root of [p]. *)
Definition square_root_fraction (p : Z) : Z := w32 (Z.sqrt (p * 2 ^ 64)).

(** K0..K63, from the first 64 primes (2..311). *)
Definition round_constants : list Z :=
  Eval vm_compute in map cube_root_fraction (primes_below 312).

(** H0..H7 at the start, from the first 8 primes (2..19). *)
Definition initial_hash : list Z :=
  Eval vm_compute in map square_root_fraction (primes_below 20).

(** Padding: the bit 1, zeros up to 56 modulo 64, the bit length on 8 bytes. *)
Definition pad (msg : bytes) : bytes :=
  let len := Z.of_nat (length msg) in
  let zeros := Z.to_nat ((55 - len) mod 64) in
  msg ++ [x80] ++ repeat x00 zeros ++ be_bytes 8 (8 * len).

(** The input cut into runs of [n] elements. *)
Fixpoint chunks {A : Type} (fuel n : nat) (l : list A) : list (list A) :=
  match fuel, l with
  | O, _ | _, [] => []
  | S f, _ => firstn n l :: chunks f n (skipn n l)
  end.

Definition block_words (block : bytes) : list Z :=
  map be_value (chunks 16 4 block).

(** The message schedule, newest word first: [rev] of it is W0..W63. *)
Fixpoint schedule (n : nat) (w : list Z) : list Z :=
  match n with
  | O => w
  | S k =>
      let w1 := add32 (add32 (small_sigma1 (nth 1 w 0)) (nth 6 w 0))
                      (add32 (small_sigma0 (nth 14 w 0)) (nth 15 w 0)) in
      schedule k (w1 :: w)
  end.

Record regs := Regs { ra : Z; rb : Z; rc : Z; rd : Z; re : Z; rf : Z; rg : Z; rh : Z }.

Definition round (r : regs) (kw : Z * Z) : regs :=
  let t1 := add32 (add32 (add32 (rh r) (big_sigma1 (re r)))
                         (add32 (ch (re r) (rf r) (rg r)) (fst kw))) (snd kw) in
  let t2 := add32 (big_sigma0 (ra r)) (maj (ra r) (rb r) (rc r)) in
  Regs (add32 t1 t2) (ra r) (rb r) (rc r) (add32 (rd r) t1) (re r) (rf r) (rg r).

Definition regs_of (h : list Z) : regs :=
  Regs (nth 0 h 0) (nth 1 h 0) (nth 2 h 0) (nth 3 h 0)
       (nth 4 h 0) (nth 5 h 0) (nth 6 h 0) (nth 7 h 0).

Definition regs_list (r : regs) : list Z :=
  [ra r; rb r; rc r; rd r; re r; rf r; rg r; rh r].

Definition compress (h : list Z) (block : bytes) : list Z :=
  let w := rev (schedule 48 (rev (block_words block))) in
  let r := fold_left round (combine round_constants w) (regs_of h) in
  map (fun p => add32 (fst p) (snd p)) (combine h (regs_list r)).

Definition digest (msg : bytes) : bytes :=
  let padded := pad msg in
  let h := fold_left compress (chunks (length padded) 64 padded) initial_hash in
  concat (map (be_bytes 4) h).

Definition block_size : nat := 64.

(** [hmac.new(key, msg, hashlib.sha256).digest()]. *)
Definition hmac (key msg : bytes) : bytes :=
  let k0 := if (block_size <? length key)%nat then digest key else key in
  let k := k0 ++ repeat x00 (block_size - length k0) in
  digest (map (xor_byte 0x5c) k ++ digest (map (xor_byte 0x36) k ++ msg)).

(** [hmac.new(key, msg, hashlib.sha256).hexdigest()]. *)
Definition hmac_hexdigest (key msg : bytes) : string := hex (hmac key msg).

End SHA256.

(** ** Strings *)

Module Str.
Import Bytes.
Local Open Scope list_scope.

Definition code_point (c : ascii) : Z := Z.of_N (N_of_ascii c).

(** UTF-8 of one code point below U+0100: one byte under 128, two above. *)
Definition encode_char (c : ascii) : bytes :=
  let n := code_point c in
  if (n <? 128)%Z then [byte_of_Z n]
  else [byte_of_Z (Z.lor 0xC0 (Z.shiftr n 6)); byte_of_Z (Z.lor 0x80 (Z.land n 0x3F))].

(** [s.encode('utf-8')]. *)
Fixpoint encode_utf8 (s : string) : bytes :=
  match s with
  | EmptyString => []
  | String c rest => encode_char c ++ encode_utf8 rest
  end.

End Str.

(** ** Python values *)

Module Py.
Import Bytes.

(** A [dict]: keys in insertion order, each key once. *)
Definition pydict (V : Type) : Type := list (string * V).

Fixpoint dict_get {V : Type} (d : pydict V) (k : string) : option V :=
  match d with
  | [] => None
  | (k', v) :: rest => if String.eqb k' k then Some v else dict_get rest k
  end.

(** [d[k] = v]: the value is replaced where the key stands, a new key goes last. *)
Fixpoint dict_set {V : Type} (d : pydict V) (k : string) (v : V) : pydict V :=
  match d with
  | [] => [(k, v)]
  | (k', v') :: rest =>
      if String.eqb k' k then (k', v) :: rest else (k', v') :: dict_set rest k v
  end.

Definition dict_keys {V : Type} (d : pydict V) : list string := map fst d.

Definition dict_contains {V : Type} (d : pydict V) (k : string) : bool :=
  match dict_get d k with Some _ => true | None => false end.

(** The values [json.loads] produces. A float is carried by its [repr]: the
    program only ever prints one. *)
Inductive pyval : Type :=
| PNone
| PBool (b : bool)
| PInt (n : Z)
| PFloat (repr : string)
| PStr (s : string)
| PList (l : list pyval)
| PDict (d : list (string * pyval)).

Definition type_name (v : pyval) : string :=
  match v with
  | PNone => "NoneType"
  | PBool _ => "bool"
  | PInt _ => "int"
  | PFloat _ => "float"
  | PStr _ => "str"
  | PList _ => "list"
  | PDict _ => "dict"
  end.

Definition int_str (n : Z) : string := NilEmpty.string_of_int (Z.to_int n).

Definition nat_str (n : nat) : string := int_str (Z.of_nat n).

Fixpoint join (sep : string) (parts : list string) : string :=
  match parts with
  | [] => EmptyString
  | [p] => p
  | p :: rest => p ++ sep ++ join sep rest
  end.

(** [sub in s] on strings. *)
Fixpoint contains (sub s : string) : bool :=
  String.prefix sub s ||
  match s with
  | EmptyString => false
  | String _ rest => contains sub rest
  end.

Fixpoint has_char (c : ascii) (s : string) : bool :=
  match s with
  | EmptyString => false
  | String c' rest => Ascii.eqb c c' || has_char c rest
  end.

Definition char (n : nat) : string := String (ascii_of_nat n) EmptyString.

Definition newline : string := char 10.
Definition backslash : string := char 92.
Definition single_quote : ascii := ascii_of_nat 39.
Definition double_quote : ascii := ascii_of_nat 34.

Definition quoted (name : string) : string :=
  String single_quote (name ++ String single_quote EmptyString).

(** [str.isprintable] on U+0000..U+00FF: the controls, DEL, U+0080..U+00A0
    and the soft hyphen U+00AD are not. *)
Definition printable (c : ascii) : bool :=
  let n := Str.code_point c in
  ((32 <=? n) && (n <? 127) || (161 <=? n) && negb (n =? 173))%Z.

Definition escape_char (quote c : ascii) : string :=
  let n := Str.code_point c in
  if (n =? 92)%Z then backslash ++ backslash
  else if Ascii.eqb c quote then backslash ++ String c EmptyString
  else if (n =? 10)%Z then backslash ++ "n"
  else if (n =? 13)%Z then backslash ++ "r"
  else if (n =? 9)%Z then backslash ++ "t"
  else if printable c then String c EmptyString
  else backslash ++ "x" ++ hex [byte_of_Z n].

Fixpoint escape (quote : ascii) (s : string) : string :=
  match s with
  | EmptyString => EmptyString
  | String c rest => escape_char quote c ++ escape quote rest
  end.

(** [repr(s)] of a string: single quotes, unless the text holds one and no
    double quote. *)
Definition str_repr (s : string) : string :=
  let quote :=
    if has_char single_quote s && negb (has_char double_quote s)
    then double_quote else single_quote in
  String quote (escape quote s ++ String quote EmptyString).

Fixpoint py_repr (v : pyval) : string :=
  match v with
  | PNone => "None"
  | PBool true => "True"
  | PBool false => "False"
  | PInt n => int_str n
  | PFloat r => r
  | PStr s => str_repr s
  | PList l => "[" ++ join ", " (map py_repr l) ++ "]"
  | PDict d =>
      "{" ++ join ", " (map (fun '(k, x) => str_repr k ++ ": " ++ py_repr x) d) ++ "}"
  end.

(** [str(v)]. *)
Definition py_str (v : pyval) : string :=
  match v with
  | PStr s => s
  | _ => py_repr v
  end.

Definition clamp_index (len i : Z) : Z :=
  if (i <? 0)%Z then Z.max (i + len) 0 else Z.min i len.

(** [s[lo:hi]], a missing bound written [None]. *)
Definition py_slice (lo hi : option Z) (s : string) : string :=
  let len := Z.of_nat (String.length s) in
  let a := match lo with None => 0%Z | Some i => clamp_index len i end in
  let b := match hi with None => len | Some j => clamp_index len j end in
  substring (Z.to_nat a) (Z.to_nat (b - a)) s.

End Py.
(** ** Exceptions and effects *)

Module Exc.
Import Bytes Py.

(** Where an exception class stands under [BaseException]: what
    [except TypeError] and [except Exception] catch. *)
Inductive exn_base : Type :=
| TypeErrorBase       (* TypeError or a subclass of it *)
| ExceptionBase       (* any other subclass of Exception *)
| BaseExceptionBase.  (* SystemExit, KeyboardInterrupt, GeneratorExit, ... *)

(** An exception: its class, [str(e)] and [e.__context__]. *)
Inductive exn : Type :=
| Exn (cls : string) (base : exn_base) (msg : string) (context : option exn).

Definition exn_cls (e : exn) : string := let 'Exn c _ _ _ := e in c.
Definition exn_base_of (e : exn) : exn_base := let 'Exn _ b _ _ := e in b.
Definition exn_msg (e : exn) : string := let 'Exn _ _ m _ := e in m.
Definition exn_context (e : exn) : option exn := let 'Exn _ _ _ c := e in c.

Definition is_TypeError (e : exn) : bool :=
  match exn_base_of e with TypeErrorBase => true | _ => false end.

Definition is_Exception (e : exn) : bool :=
  match exn_base_of e with BaseExceptionBase => false | _ => true end.

Definition ValueError (msg : string) : exn := Exn "ValueError" ExceptionBase msg None.
Definition TypeError (msg : string) : exn := Exn "TypeError" TypeErrorBase msg None.
Definition AttributeError (msg : string) : exn := Exn "AttributeError" ExceptionBase msg None.
Definition OSError (msg : string) : exn := Exn "OSError" ExceptionBase msg None.
Definition JSONDecodeError (msg : string) : exn := Exn "JSONDecodeError" ExceptionBase msg None.
Definition SyntaxError (msg : string) : exn := Exn "SyntaxError" ExceptionBase msg None.
Definition SystemExit (msg : string) : exn := Exn "SystemExit" BaseExceptionBase msg None.

(** An exception raised while [outer] is being handled: [outer] closes its
    chain of [__context__]. *)
Fixpoint chain_context (outer e : exn) : exn :=
  match e with
  | Exn c b m None => Exn c b m (Some outer)
  | Exn c b m (Some inner) => Exn c b m (Some (chain_context outer inner))
  end.

(** What the program does besides returning: one event per
    [hmac.new(key, msg, hashlib.sha256)] digest computed. *)
Inductive event : Type :=
| HmacSha256 (key msg : bytes).

Inductive outcome (A : Type) : Type :=
| Returned (a : A)
| Raised (e : exn).

Arguments Returned {A} a.
Arguments Raised {A} e.

(** A computation: the events it performed, then how it ended. *)
Definition M (A : Type) : Type := (list event * outcome A)%type.

Definition M_ret {A : Type} (a : A) : M A := (@nil event, Returned a).

Definition M_bind {A B : Type} (c : M A) (k : A -> M B) : M B :=
  match c with
  | (log, Returned a) => let '(log', r) := k a in ((log ++ log')%list, r)
  | (log, Raised e) => (log, Raised e)
  end.

Definition M_raise {A : Type} (e : exn) : M A := (@nil event, Raised e).

Definition M_catch {A : Type} (c : M A) (handler : exn -> M A) : M A :=
  match c with
  | (log, Raised e) => let '(log', r) := handler e in ((log ++ log')%list, r)
  | (log, Returned a) => (log, Returned a)
  end.

#[global] Instance Monad_M : Monad M :=
  {| ret := @M_ret; bind := @M_bind |}.

#[global] Instance MonadExc_M : MonadExc exn M :=
  {| raise := @M_raise; catch := @M_catch |}.

(** [try: c except Cls as e: handler]: only the exceptions [Cls] covers are
    handled, any other goes on. *)
Definition try_except {A : Type} (c : M A) (covers : exn -> bool) (handler : exn -> M A) : M A :=
  catch c (fun e => if covers e then handler e else raise e).

(** [c] run inside the handler of [outer]: what it raises is chained to it. *)
Definition handling {A : Type} (outer : exn) (c : M A) : M A :=
  match c with
  | (log, Raised e) => (log, Raised (chain_context outer e))
  | (log, Returned a) => (log, Returned a)
  end.

(** [hmac.new(key, msg, hashlib.sha256).hexdigest()]. *)
Definition hmac_new_hexdigest (key msg : bytes) : M string :=
  ([HmacSha256 key msg], Returned (SHA256.hmac_hexdigest key msg)).

Definition events {A : Type} (c : M A) : list event := fst c.
Definition result {A : Type} (c : M A) : outcome A := snd c.

End Exc.

(** ** The default snippet: ABA HMAC-SHA256 *)

Module Snippet.
Import Bytes Str Py Exc.

(** The text [create_default_snippets] stores: [default_code.strip()]. *)
Definition default_code : string :=
  let dq := String double_quote EmptyString in
  join newline
  [ "def generate(payload, passcode, api_key=" ++ dq ++ dq ++ ", key_order=None):";
    "    import hmac";
    "    import hashlib";
    EmptyString;
    "    # 1. Parse Passcode";
    "    if len(passcode) < 16:";
    "        raise ValueError(" ++ dq ++ "PassCode must be at least 16 characters long." ++ dq ++ ")";
    "    iv = passcode[-16:]";
    "    key = passcode[:-16]";
    EmptyString;
    "    # 2. Concat API Key";
    "    concat_str = api_key if api_key else " ++ dq ++ dq;
    EmptyString;
    "    # 3. Determine Keys to Sign";
    "    keys_to_sign = []";
    "    if key_order:";
    "        # If explicit order provided, use it";
    "        keys_to_sign = key_order";
    "    else:";
    "        # Default: all keys except 'hash' and special meta keys";
    "        keys_to_sign = [k for k in payload.keys() if k != 'hash' and k != '__keys_order__']";
    EmptyString;
    "    # 4. Concat Payload Values";
    "    for k in keys_to_sign:";
    "        val = payload.get(k)";
    "        if val is None: val = " ++ dq ++ dq;
    "        concat_str += str(val)";
    EmptyString;
    "    # 5. Create Message";
    "    message = iv + concat_str";
    EmptyString;
    "    # 6. Sign";
    "    signature = hmac.new(";
    "        key.encode('utf-8'), ";
    "        message.encode('utf-8'), ";
    "        hashlib.sha256";
    "    ).hexdigest()";
    "    ";
    "    return signature" ].

(** Step 3 of [generate]: the keys whose values are signed. An empty
    [key_order] is falsy, like [None]. *)
Definition keys_to_sign (payload : pydict pyval) (key_order : option (list string)) : list string :=
  match key_order with
  | Some (k :: ks) => k :: ks
  | Some [] | None =>
      filter (fun k => negb (k =? "hash") && negb (k =? "__keys_order__")) (dict_keys payload)
  end.

(** One turn of the loop of step 4: [payload.get(k)], [None] replaced by
    the empty string, then [str]. *)
Definition field_text (payload : pydict pyval) (k : string) : string :=
  let val := match dict_get payload k with
             | None | Some PNone => PStr EmptyString
             | Some v => v
             end in
  py_str val.

(** [generate(payload, passcode, api_key, key_order)] of the default snippet. *)
Definition generate (payload : pydict pyval) (passcode : string)
    (api_key : option string) (key_order : option (list string)) : M pyval :=
  if (String.length passcode <? 16)%nat
  then raise (ValueError "PassCode must be at least 16 characters long.")
  else
    let iv := py_slice (Some (-16)%Z) None passcode in
    let key := py_slice None (Some (-16)%Z) passcode in
    let concat_str := match api_key with
                      | Some (String c rest) => String c rest
                      | Some EmptyString | None => EmptyString
                      end in
    let keys := keys_to_sign payload key_order in
    let concat_str := fold_left (fun acc k => acc ++ field_text payload k) keys concat_str in
    let message := iv ++ concat_str in
    signature <- hmac_new_hexdigest (encode_utf8 key) (encode_utf8 message) ;;
    ret (PStr signature).

End Snippet.

(** ** CryptoEngine *)

Module Engine.
Import Bytes Str Py Exc.

(** A function made by [def name(params...)]: positional parameters, the
    last of them with defaults, and the body run on the bound values. *)
Record pyfunction : Type := {
  fn_name : string;
  fn_params : list string;
  fn_defaults : list pyval;
  fn_body : list pyval -> M pyval
}.

(** What a name of the snippet's namespace is bound to: a plain value, or
    an object that can be called with positional arguments. *)
Inductive pyobj : Type :=
| ObjVal (v : pyval)
| ObjCallable (call : list pyval -> M pyval).

(** The names of a missing-argument message: 'a' / 'a' and 'b' /
    'a', 'b', and 'c'. *)
Fixpoint format_names (names : list string) : string :=
  match names with
  | [] => EmptyString
  | [a] => quoted a
  | [a; b] => quoted a ++ " and " ++ quoted b
  | [a; b; c] => quoted a ++ ", " ++ quoted b ++ ", and " ++ quoted c
  | a :: rest => quoted a ++ ", " ++ format_names rest
  end.

Definition too_many_positional (f : pyfunction) (given : nat) : string :=
  let p := List.length (fn_params f) in
  let d := List.length (fn_defaults f) in
  let sig := if (d =? 0)%nat then nat_str p
             else "from " ++ nat_str (p - d) ++ " to " ++ nat_str p in
  let plural := if (d =? 0)%nat then negb (p =? 1)%nat else true in
  fn_name f ++ "() takes " ++ sig ++ " positional argument"
    ++ (if plural then "s" else EmptyString)
    ++ " but " ++ nat_str given ++ (if (given =? 1)%nat then " was" else " were") ++ " given".

Definition missing_positional (f : pyfunction) (given : nat) : string :=
  let required := List.length (fn_params f) - List.length (fn_defaults f) in
  let missing := firstn (required - given) (skipn given (fn_params f)) in
  fn_name f ++ "() missing " ++ nat_str (List.length missing) ++ " required positional argument"
    ++ (if (List.length missing =? 1)%nat then EmptyString else "s")
    ++ ": " ++ format_names missing.

(** Calling a [def] function: the arity is checked, the parameters left
    over take their defaults, the body runs. *)
Definition call_function (f : pyfunction) (args : list pyval) : M pyval :=
  let given := List.length args in
  let p := List.length (fn_params f) in
  let required := p - List.length (fn_defaults f) in
  if (p <? given)%nat then raise (TypeError (too_many_positional f given))
  else if (given <? required)%nat then raise (TypeError (missing_positional f given))
  else fn_body f (args ++ skipn (given - required) (fn_defaults f))%list.

Definition def_function (f : pyfunction) : pyobj := ObjCallable (call_function f).

(** A call [obj(a1, ..., an)] with positional arguments. *)
Definition py_call (obj : pyobj) (args : list pyval) : M pyval :=
  match obj with
  | ObjCallable call => call args
  | ObjVal v => raise (TypeError (quoted (type_name v) ++ " object is not callable"))
  end.

(** The interpreter services the engine calls: [exec(code, globals, locals)],
    answered by the [locals] the code leaves, and [traceback.format_exc()]
    of the exception being handled. *)
Class Runtime : Type := {
  py_exec : string -> list string -> M (pydict pyobj);
  format_exc : exn -> string
}.

(** The modules [execute_snippet] puts in the snippet's globals. *)
Definition global_scope : list string := ["hashlib"; "hmac"; "base64"; "json"; "time"].

Definition arg_api_key (api_key : option string) : pyval :=
  match api_key with Some s => PStr s | None => PNone end.

Definition arg_key_order (key_order : option (list string)) : pyval :=
  match key_order with Some ks => PList (map PStr ks) | None => PNone end.

(** The test of the [except TypeError as te] clause. *)
Definition fallback_applies (te : exn) : bool :=
  contains "positional argument" (exn_msg te) || contains "argument" (exn_msg te).

(** [f"Error: {str(e)}\n{traceback.format_exc()}"]. *)
Definition error_text `{Runtime} (e : exn) : string :=
  "Error: " ++ exn_msg e ++ newline ++ format_exc e.

(** The arguments of the two calls [execute_snippet] makes. *)
Definition args3 (payload : pydict pyval) (passcode : string) (api_key : option string)
    : list pyval :=
  [PDict payload; PStr passcode; arg_api_key api_key].

Definition args4 (payload : pydict pyval) (passcode : string) (api_key : option string)
    (key_order : option (list string)) : list pyval :=
  [PDict payload; PStr passcode; arg_api_key api_key; arg_key_order key_order].

(** The inner [try] of [execute_snippet]: the call with four arguments,
    and the call with three when a TypeError speaks of arguments. *)
Definition invoke (generate_func : pyobj) (payload : pydict pyval) (passcode : string)
    (api_key : option string) (key_order : option (list string)) : M pyval :=
  try_except
    (py_call generate_func (args4 payload passcode api_key key_order))
    is_TypeError
    (fun te =>
       if fallback_applies te
       then handling te (py_call generate_func (args3 payload passcode api_key))
       else raise te).

(** [CryptoEngine.execute_snippet]: [attempt] is the body of its outer
    [try]. The second [except Exception] clause of the source repeats the
    first and is never reached. *)
Definition attempt `{Runtime} (snippet_code : string) (payload : pydict pyval)
    (passcode : string) (api_key : option string) (key_order : option (list string)) : M pyval :=
  local_scope <- py_exec snippet_code global_scope ;;
  match dict_get local_scope "generate" with
  | None => raise (ValueError "Snippet must define a 'generate' function.")
  | Some generate_func => invoke generate_func payload passcode api_key key_order
  end.

Definition execute_snippet `{Runtime} (snippet_code : string) (payload : pydict pyval)
    (passcode : string) (api_key : option string) (key_order : option (list string)) : M pyval :=
  try_except (attempt snippet_code payload passcode api_key key_order)
    is_Exception
    (fun e => ret (PStr (error_text e))).

(** What [App.on_generate] writes to the output box: [str(result)]. *)
Definition on_generate_output (result : pyval) : string := py_str result.

End Engine.

(** ** SnippetManager *)

Module Store.
Import Py Exc Snippet.

(** What a file holds: a JSON text, given by the document [json.load] reads
    from it ([json.dump(doc, f, indent=2)] writes such a text), or text that
    is no JSON. *)
Inductive file_content : Type :=
| JsonText (doc : pyval)
| OtherText (text : string).

(** The files by path, and the paths that cannot be opened for writing. *)
Record filesystem : Type := {
  fs_files : pydict file_content;
  fs_readonly : list string
}.

(** [os.path.exists(path)]. *)
Definition path_exists (fs : filesystem) (path : string) : bool :=
  dict_contains (fs_files fs) path.

Definition writable (fs : filesystem) (path : string) : bool :=
  negb (existsb (String.eqb path) (fs_readonly fs)).

(** [with open(path, 'r') as f: json.load(f)]. *)
Definition read_json (fs : filesystem) (path : string) : outcome pyval :=
  match dict_get (fs_files fs) path with
  | None => Raised (OSError "No such file or directory")
  | Some (JsonText doc) => Returned doc
  | Some (OtherText _) => Raised (JSONDecodeError "Expecting value")
  end.

(** [with open(path, 'w') as f: json.dump(doc, f, indent=2)]. *)
Definition write_json (fs : filesystem) (path : string) (doc : pyval)
    : outcome unit * filesystem :=
  if writable fs path
  then (Returned tt,
        {| fs_files := dict_set (fs_files fs) path (JsonText doc);
           fs_readonly := fs_readonly fs |})
  else (Raised (OSError "Permission denied"), fs).

Record SnippetManager : Type := {
  filepath : string;
  snippets : pyval
}.

Definition with_snippets (self : SnippetManager) (v : pyval) : SnippetManager :=
  {| filepath := filepath self; snippets := v |}.

(** [obj[key] = value] with a string key. *)
Definition py_setitem (obj : pyval) (key : string) (value : pyval) : outcome pyval :=
  match obj with
  | PDict d => Returned (PDict (dict_set d key value))
  | PList _ => Raised (TypeError "list indices must be integers or slices, not str")
  | v => Raised (TypeError (quoted (type_name v) ++ " object does not support item assignment"))
  end.

(** [save_snippets]: [True] when the file was written; a failure is printed
    and answered by [False]. *)
Definition save_snippets (self : SnippetManager) (fs : filesystem) : bool * filesystem :=
  match write_json fs (filepath self) (snippets self) with
  | (Returned _, fs') => (true, fs')
  | (Raised _, fs') => (false, fs')
  end.

Definition snippet_entry (code description : string) : pyval :=
  PDict [("code", PStr code); ("description", PStr description)].

(** [update_snippet(name, code, description)]; what [save_snippets] answers
    is dropped. *)
Definition update_snippet (self : SnippetManager) (fs : filesystem)
    (name code description : string) : outcome (SnippetManager * filesystem) :=
  match py_setitem (snippets self) name (snippet_entry code description) with
  | Raised e => Raised e
  | Returned d =>
      let self' := with_snippets self d in
      Returned (self', snd (save_snippets self' fs))
  end.

Definition create_default_snippets (self : SnippetManager) (fs : filesystem)
    : outcome (SnippetManager * filesystem) :=
  match py_setitem (snippets self) "ABA HMAC SHA256"
          (PDict [("code", PStr default_code);
                  ("description", PStr "Original ABA HMAC-SHA256 Implementation")]) with
  | Raised e => Raised e
  | Returned d =>
      let self' := with_snippets self d in
      Returned (self', snd (save_snippets self' fs))
  end.

(** [load_snippets]: the defaults are written first when the file is not
    there; a file that cannot be read or parsed leaves an empty collection. *)
Definition load_snippets (self : SnippetManager) (fs : filesystem)
    : outcome (SnippetManager * filesystem) :=
  match (if path_exists fs (filepath self) then Returned (self, fs)
         else create_default_snippets self fs) with
  | Raised e => Raised e
  | Returned (self1, fs1) =>
      match read_json fs1 (filepath self1) with
      | Returned doc => Returned (with_snippets self1 doc, fs1)
      | Raised _ => Returned (with_snippets self1 (PDict []), fs1)
      end
  end.

(** [SnippetManager(filepath)]. *)
Definition new_manager (path : string) (fs : filesystem)
    : outcome (SnippetManager * filesystem) :=
  load_snippets {| filepath := path; snippets := PDict [] |} fs.

(** [get_snippet(name)]: [self.snippets.get(name)]. *)
Definition get_snippet (self : SnippetManager) (name : string) : outcome pyval :=
  match snippets self with
  | PDict d => Returned (match dict_get d name with Some v => v | None => PNone end)
  | v => Raised (AttributeError (quoted (type_name v) ++ " object has no attribute 'get'"))
  end.

End Store.

(** ** Snippets used as concrete inputs *)

Module Demo.
Import Bytes Str Py Exc Snippet Engine.

Definition as_api_key (v : pyval) : option (option string) :=
  match v with
  | PNone => Some None
  | PStr s => Some (Some s)
  | _ => None
  end.

Fixpoint as_strings (l : list pyval) : option (list string) :=
  match l with
  | [] => Some []
  | PStr s :: rest =>
      match as_strings rest with Some ss => Some (s :: ss) | None => None end
  | _ :: _ => None
  end.

Definition as_key_order (v : pyval) : option (option (list string)) :=
  match v with
  | PNone => Some None
  | PList l => match as_strings l with Some ks => Some (Some ks) | None => None end
  | _ => None
  end.

(** The function [default_code] defines, on the arguments of an
    InvocationRequest: a mapping, a string, a string or [None], a list of
    strings or [None]. Other argument values are outside the embedding and
    are met by a TypeError as a placeholder; [execute_snippet] passes none. *)
Definition default_generate : pyfunction := {|
  fn_name := "generate";
  fn_params := ["payload"; "passcode"; "api_key"; "key_order"];
  fn_defaults := [PStr EmptyString; PNone];
  fn_body := fun args =>
    match args with
    | [PDict payload; PStr passcode; a; k] =>
        match as_api_key a, as_key_order k with
        | Some api_key, Some key_order => generate payload passcode api_key key_order
        | _, _ => raise (TypeError "values outside the request types")
        end
    | _ => raise (TypeError "values outside the request types")
    end
|}.

(** <<
def generate(payload, passcode, api_key):
    return 'legacy-digest'
>> *)
Definition legacy_code : string :=
  join newline
  [ "def generate(payload, passcode, api_key):";
    "    return 'legacy-digest'" ].

Definition legacy_generate : pyfunction := {|
  fn_name := "generate";
  fn_params := ["payload"; "passcode"; "api_key"];
  fn_defaults := [];
  fn_body := fun _ => ret (PStr "legacy-digest")
|}.

(** <<
def generate(payload, passcode, api_key, key_order=None):
    return 'legacy-digest'
>> *)
Definition legacy_key_order_code : string :=
  join newline
  [ "def generate(payload, passcode, api_key, key_order=None):";
    "    return 'legacy-digest'" ].

Definition legacy_key_order_generate : pyfunction := {|
  fn_name := "generate";
  fn_params := ["payload"; "passcode"; "api_key"; "key_order"];
  fn_defaults := [PNone];
  fn_body := fun _ => ret (PStr "legacy-digest")
|}.

(** <<
def generate(payload, passcode, api_key, key_order=None):
    if key_order is None:
        return 'signed without key order'
    raise TypeError('key_order argument is not supported')
>> *)
Definition picky_code : string :=
  join newline
  [ "def generate(payload, passcode, api_key, key_order=None):";
    "    if key_order is None:";
    "        return 'signed without key order'";
    "    raise TypeError('key_order argument is not supported')" ].

Definition picky_generate : pyfunction := {|
  fn_name := "generate";
  fn_params := ["payload"; "passcode"; "api_key"; "key_order"];
  fn_defaults := [PNone];
  fn_body := fun args =>
    match nth 3 args PNone with
    | PNone => ret (PStr "signed without key order")
    | _ => raise (TypeError "key_order argument is not supported")
    end
|}.

(** <<
def generate(payload, passcode, api_key, key_order=None):
    return 42
>> *)
Definition number_code : string :=
  join newline
  [ "def generate(payload, passcode, api_key, key_order=None):";
    "    return 42" ].

Definition number_generate : pyfunction := {|
  fn_name := "generate";
  fn_params := ["payload"; "passcode"; "api_key"; "key_order"];
  fn_defaults := [PNone];
  fn_body := fun _ => ret (PInt 42)
|}.

(** <<
def generate(payload, passcode, api_key, key_order=None):
    raise SystemExit('bye')
>> *)
Definition exit_code : string :=
  join newline
  [ "def generate(payload, passcode, api_key, key_order=None):";
    "    raise SystemExit('bye')" ].

Definition exit_generate : pyfunction := {|
  fn_name := "generate";
  fn_params := ["payload"; "passcode"; "api_key"; "key_order"];
  fn_defaults := [PNone];
  fn_body := fun _ => raise (SystemExit "bye")
|}.

(** <<
def sign(payload, passcode):
    return 'x'
>> *)
Definition sign_only_code : string :=
  join newline
  [ "def sign(payload, passcode):";
    "    return 'x'" ].

Definition sign_function : pyfunction := {|
  fn_name := "sign";
  fn_params := ["payload"; "passcode"];
  fn_defaults := [];
  fn_body := fun _ => ret (PStr "x")
|}.

(** [generate] bound to a number, not to a function. *)
Definition not_callable_code : string := "generate = 5".

(** What [exec] leaves in [locals] for the texts above; any other text is
    taken for a syntax error. *)
Definition demo_exec (code : string) (globals : list string) : M (pydict pyobj) :=
  if code =? default_code then ret [("generate", def_function default_generate)]
  else if code =? legacy_code then ret [("generate", def_function legacy_generate)]
  else if code =? legacy_key_order_code
       then ret [("generate", def_function legacy_key_order_generate)]
  else if code =? picky_code then ret [("generate", def_function picky_generate)]
  else if code =? number_code then ret [("generate", def_function number_generate)]
  else if code =? exit_code then ret [("generate", def_function exit_generate)]
  else if code =? sign_only_code then ret [("sign", def_function sign_function)]
  else if code =? not_callable_code then ret [("generate", ObjVal (PInt 5))]
  else raise (SyntaxError "invalid syntax").

(** The last line of a traceback: the class and the message. *)
Definition demo_format_exc (e : exn) : string :=
  "Traceback (most recent call last):" ++ newline
    ++ exn_cls e ++ ": " ++ exn_msg e ++ newline.

Definition demo_runtime : Runtime :=
  {| py_exec := demo_exec; format_exc := demo_format_exc |}.

(** The payload and the passcode of the specification's example. *)
Definition example_payload : pydict pyval :=
  [("username", PStr "user"); ("request_time", PStr "20260101010101")].

Definition example_passcode : string := "mysecretkey12345678901234567890".

(** A manager on [snippets.json] whose collection is empty. *)
Definition demo_manager : Store.SnippetManager :=
  {| Store.filepath := "snippets.json"; Store.snippets := PDict [] |}.

(** No file yet, and nothing write-protected. *)
Definition example_fs : Store.filesystem :=
  {| Store.fs_files := []; Store.fs_readonly := [] |}.

(** [snippets.json] holds text that is no JSON. *)
Definition garbled_fs : Store.filesystem :=
  {| Store.fs_files := [("snippets.json", Store.OtherText "{ not json")];
     Store.fs_readonly := [] |}.


End Demo.

(** ** The specification's words *)

Module Spec.
Import Py Exc Engine.

(** The last [n] characters of [s]. *)
Definition last_chars (n : nat) (s : string) : string :=
  substring (String.length s - n) n s.

(** All of [s] except its last [n] characters. *)
Definition all_but_last (n : nat) (s : string) : string :=
  substring 0 (String.length s - n) s.

(** The apiKey, the empty string when it is not supplied. *)
Definition api_key_text (api_key : option string) : string :=
  match api_key with Some s => s | None => EmptyString end.

(** The string form of the payload value under [k]; null and missing
    values give the empty string. *)
Definition value_text (payload : pydict pyval) (k : string) : string :=
  match dict_get payload k with
  | Some PNone => EmptyString
  | Some v => py_str v
  | None => EmptyString
  end.

(** All payload keys in their order, without [hash] and the
    ordering-metadata key. *)
Fixpoint default_key_order (payload : pydict pyval) : list string :=
  match payload with
  | [] => []
  | (k, _) :: rest =>
      if (k =? "hash") || (k =? "__keys_order__") then default_key_order rest
      else k :: default_key_order rest
  end.

(** The texts of a list, one after the other. *)
Fixpoint concat_texts (texts : list string) : string :=
  match texts with
  | [] => EmptyString
  | t :: rest => t ++ concat_texts rest
  end.

(** A function like [f] that takes one parameter more, [key_order], with
    the given default if any, and does not read it. *)
Definition accepting_key_order (f : pyfunction) (default : list pyval) : pyfunction := {|
  fn_name := fn_name f;
  fn_params := (fn_params f ++ ["key_order"])%list;
  fn_defaults := (fn_defaults f ++ default)%list;
  fn_body := fun args => fn_body f (firstn (List.length (fn_params f)) args)
|}.


Fixpoint all_chars (p : ascii -> bool) (s : string) : bool :=
  match s with
  | EmptyString => true
  | String c rest => p c && all_chars p rest
  end.

End Spec.

(** ** Texts of the entry boxes: [strip], [split] *)

Module Text.
Import Str Py.

(** [str.isspace] on U+0000..U+00FF: the characters [strip] removes. *)
Definition is_space (c : ascii) : bool :=
  let n := code_point c in
  ((9 <=? n) && (n <=? 13) || (28 <=? n) && (n <=? 32) || (n =? 133) || (n =? 160))%Z.

Fixpoint lstrip (s : string) : string :=
  match s with
  | EmptyString => EmptyString
  | String c rest => if is_space c then lstrip rest else s
  end.

Fixpoint rstrip (s : string) : string :=
  match s with
  | EmptyString => EmptyString
  | String c rest =>
      match rstrip rest with
      | EmptyString => if is_space c then EmptyString else String c EmptyString
      | String c' kept => String c (String c' kept)
      end
  end.

(** [s.strip()]. *)
Definition strip (s : string) : string := lstrip (rstrip s).

(** [s.split(sep)] for a separator of one character: never an empty list. *)
Fixpoint split (sep : ascii) (s : string) : list string :=
  match s with
  | EmptyString => [EmptyString]
  | String c rest =>
      if Ascii.eqb c sep then EmptyString :: split sep rest
      else match split sep rest with
           | part :: parts => String c part :: parts
           | [] => [String c EmptyString]
           end
  end.

Definition comma : ascii := ascii_of_nat 44.

(** The truth value of a string: it is not empty. *)
Definition nonempty (s : string) : bool := negb (s =? EmptyString).

End Text.

(** ** SnippetManager: names and deletion *)

Module StoreOps.
Import Py Exc Store.

(** [del d[k]] on the pairs of a dict. *)
Definition dict_del {V : Type} (d : pydict V) (k : string) : pydict V :=
  filter (fun kv => negb (fst kv =? k)) d.

Definition KeyError (key : string) : exn := Exn "KeyError" ExceptionBase (str_repr key) None.

(** [get_all_names]: [list(self.snippets.keys())]. *)
Definition get_all_names (self : SnippetManager) : outcome (list string) :=
  match snippets self with
  | PDict d => Returned (dict_keys d)
  | v => Raised (AttributeError (quoted (type_name v) ++ " object has no attribute 'keys'"))
  end.

(** [name in obj] for a string [name]: a key of a dict, an element of a
    list, a part of a string. *)
Definition py_contains (obj : pyval) (name : string) : outcome bool :=
  match obj with
  | PDict d => Returned (dict_contains d name)
  | PList l =>
      Returned (existsb (fun x => match x with PStr s => s =? name | _ => false end) l)
  | PStr s => Returned (contains name s)
  | v => Raised (TypeError ("argument of type " ++ quoted (type_name v) ++ " is not iterable"))
  end.

(** [del obj[name]] for a string [name]. *)
Definition py_delitem (obj : pyval) (name : string) : outcome pyval :=
  match obj with
  | PDict d =>
      if dict_contains d name then Returned (PDict (dict_del d name))
      else Raised (KeyError name)
  | PList _ => Raised (TypeError "list indices must be integers or slices, not str")
  | v => Raised (TypeError (quoted (type_name v) ++ " object does not support item deletion"))
  end.

(** [delete_snippet(name)]: the file is written only when the name was
    there. *)
Definition delete_snippet (self : SnippetManager) (fs : filesystem) (name : string)
    : outcome (SnippetManager * filesystem) :=
  match py_contains (snippets self) name with
  | Raised e => Raised e
  | Returned false => Returned (self, fs)
  | Returned true =>
      match py_delitem (snippets self) name with
      | Raised e => Raised e
      | Returned d =>
          let self' := with_snippets self d in
          Returned (self', snd (save_snippets self' fs))
      end
  end.

End StoreOps.

(** ** App: the handlers of the window *)

Module App.
Import Str Py Exc Engine Store StoreOps Text.

(** [json.loads], the parser of the payload box, is a parameter. *)
Class Json : Type := {
  json_loads : string -> outcome pyval
}.

(** [bool(v)]. *)
Definition truthy (v : pyval) : bool :=
  match v with
  | PNone => false
  | PBool b => b
  | PInt n => negb (n =? 0)%Z
  | PFloat r => negb ((r =? "0.0") || (r =? "-0.0"))
  | PStr s => nonempty s
  | PList l => match l with [] => false | _ :: _ => true end
  | PDict d => match d with [] => false | _ :: _ => true end
  end.

(** [obj[key]] for a string [key]. *)
Definition py_getitem (obj : pyval) (key : string) : outcome pyval :=
  match obj with
  | PDict d =>
      match dict_get d key with
      | Some v => Returned v
      | None => Raised (KeyError key)
      end
  | PList _ => Raised (TypeError "list indices must be integers or slices, not str")
  | PStr _ => Raised (TypeError "string indices must be integers, not 'str'")
  | v => Raised (TypeError (quoted (type_name v) ++ " object is not subscriptable"))
  end.

(** The window, by what its widgets hold: the manager, the variable and
    the values of the algorithm menu, the texts of the entries and of the
    text boxes, the placeholder of the name entry. *)
Record App : Type := {
  snippet_manager : SnippetManager;
  algo_var : string;
  algo_values : list string;
  gen_passcode : string;
  gen_apikey : string;
  gen_keys : string;
  gen_payload : string;
  gen_output : string;
  edit_name_entry : string;
  edit_name_placeholder : string;
  edit_code : string
}.

(** [box.get("1.0", "end")]: the text, and the newline Tk ends it with. *)
Definition textbox_get (content : string) : string := content ++ newline.

(** [gen_output.delete("1.0", "end")] then [gen_output.insert("1.0", text)]. *)
Definition with_output (app : App) (text : string) : App :=
  {| snippet_manager := snippet_manager app; algo_var := algo_var app;
     algo_values := algo_values app; gen_passcode := gen_passcode app;
     gen_apikey := gen_apikey app; gen_keys := gen_keys app;
     gen_payload := gen_payload app; gen_output := text;
     edit_name_entry := edit_name_entry app;
     edit_name_placeholder := edit_name_placeholder app; edit_code := edit_code app |}.

(** [gen_keys.delete(0, "end")] then [gen_keys.insert(0, text)]. *)
Definition with_keys (app : App) (text : string) : App :=
  {| snippet_manager := snippet_manager app; algo_var := algo_var app;
     algo_values := algo_values app; gen_passcode := gen_passcode app;
     gen_apikey := gen_apikey app; gen_keys := text;
     gen_payload := gen_payload app; gen_output := gen_output app;
     edit_name_entry := edit_name_entry app;
     edit_name_placeholder := edit_name_placeholder app; edit_code := edit_code app |}.

(** [gen_algo_option.configure(values=names)], and [algo_var.set(name)]. *)
Definition with_algo (app : App) (selected : string) (names : list string) : App :=
  {| snippet_manager := snippet_manager app; algo_var := selected;
     algo_values := names; gen_passcode := gen_passcode app;
     gen_apikey := gen_apikey app; gen_keys := gen_keys app;
     gen_payload := gen_payload app; gen_output := gen_output app;
     edit_name_entry := edit_name_entry app;
     edit_name_placeholder := edit_name_placeholder app; edit_code := edit_code app |}.

(** [edit_name_entry.configure(placeholder_text=text)]. *)
Definition with_placeholder (app : App) (text : string) : App :=
  {| snippet_manager := snippet_manager app; algo_var := algo_var app;
     algo_values := algo_values app; gen_passcode := gen_passcode app;
     gen_apikey := gen_apikey app; gen_keys := gen_keys app;
     gen_payload := gen_payload app; gen_output := gen_output app;
     edit_name_entry := edit_name_entry app;
     edit_name_placeholder := text; edit_code := edit_code app |}.

Definition with_manager (app : App) (manager : SnippetManager) : App :=
  {| snippet_manager := manager; algo_var := algo_var app;
     algo_values := algo_values app; gen_passcode := gen_passcode app;
     gen_apikey := gen_apikey app; gen_keys := gen_keys app;
     gen_payload := gen_payload app; gen_output := gen_output app;
     edit_name_entry := edit_name_entry app;
     edit_name_placeholder := edit_name_placeholder app; edit_code := edit_code app |}.

(** [edit_name_entry.delete(0, "end")] then [edit_name_entry.insert(0, text)]. *)
Definition with_name_entry (app : App) (text : string) : App :=
  {| snippet_manager := snippet_manager app; algo_var := algo_var app;
     algo_values := algo_values app; gen_passcode := gen_passcode app;
     gen_apikey := gen_apikey app; gen_keys := gen_keys app;
     gen_payload := gen_payload app; gen_output := gen_output app;
     edit_name_entry := text;
     edit_name_placeholder := edit_name_placeholder app; edit_code := edit_code app |}.

(** [edit_code.delete("1.0", "end")] then [edit_code.insert("1.0", text)]. *)
Definition with_code (app : App) (text : string) : App :=
  {| snippet_manager := snippet_manager app; algo_var := algo_var app;
     algo_values := algo_values app; gen_passcode := gen_passcode app;
     gen_apikey := gen_apikey app; gen_keys := gen_keys app;
     gen_payload := gen_payload app; gen_output := gen_output app;
     edit_name_entry := edit_name_entry app;
     edit_name_placeholder := edit_name_placeholder app; edit_code := text |}.

(** The user's typing in the passcode entry. *)
Definition with_passcode (app : App) (text : string) : App :=
  {| snippet_manager := snippet_manager app; algo_var := algo_var app;
     algo_values := algo_values app; gen_passcode := text;
     gen_apikey := gen_apikey app; gen_keys := gen_keys app;
     gen_payload := gen_payload app; gen_output := gen_output app;
     edit_name_entry := edit_name_entry app;
     edit_name_placeholder := edit_name_placeholder app; edit_code := edit_code app |}.

(** The user's typing in the payload box. *)
Definition with_payload (app : App) (text : string) : App :=
  {| snippet_manager := snippet_manager app; algo_var := algo_var app;
     algo_values := algo_values app; gen_passcode := gen_passcode app;
     gen_apikey := gen_apikey app; gen_keys := gen_keys app;
     gen_payload := text; gen_output := gen_output app;
     edit_name_entry := edit_name_entry app;
     edit_name_placeholder := edit_name_placeholder app; edit_code := edit_code app |}.

(** What a text box shows for a value handed to [insert]: a string as it
    is, any other value as Tk converts it. *)
Class Tk : Type := {
  tk_text : pyval -> string
}.

Definition inserted_text `{Tk} (v : pyval) : string :=
  match v with
  | PStr s => s
  | _ => tk_text v
  end.

(** The key order [on_generate] reads from the keys entry:
    [[k.strip() for k in keys_str.split(',') if k.strip()] if keys_str else None]. *)
Definition key_order_of_text (keys_text : string) : option (list string) :=
  let keys_str := strip keys_text in
  if nonempty keys_str
  then Some (map strip (filter (fun k => nonempty (strip k)) (split comma keys_str)))
  else None.

(** A key the keys entry gives back as it was written: not empty, no
    blank at either end, no comma. *)
Definition plain_key (k : string) : bool :=
  nonempty k && (strip k =? k) && negb (has_char comma k).

(** The keys [_try_extract_keys] writes: all of the payload's but [hash],
    joined by a comma and a space. *)
Definition extracted_keys (data : pydict pyval) : list string :=
  filter (fun k => negb (k =? "hash")) (dict_keys data).

(** [_try_extract_keys], which [on_payload_change] calls on every key
    release: whatever is raised is dropped. *)
Definition try_extract_keys `{Json} (app : App) : App :=
  let payload_str := strip (textbox_get (gen_payload app)) in
  if negb (nonempty payload_str) then app
  else
    match json_loads payload_str with
    | Returned (PDict data) =>
        let current_keys := strip (gen_keys app) in
        let new_keys_str := join ", " (extracted_keys data) in
        if negb (current_keys =? new_keys_str) then with_keys app new_keys_str else app
    | Returned _ => app
    | Raised _ => app
    end.

(** [refresh_algo_list]: the menu lists the names, or [Default] when there
    is none; a selection that is not listed gives way to the first name. *)
Definition refresh_algo_list (app : App) : outcome App :=
  match get_all_names (snippet_manager app) with
  | Raised e => Raised e
  | Returned names =>
      let names := match names with [] => ["Default"] | _ :: _ => names end in
      if negb (existsb (String.eqb (algo_var app)) names)
      then Returned (with_algo app (hd EmptyString names) names)
      else Returned (with_algo app (algo_var app) names)
  end.

Definition lift {A : Type} (o : outcome A) : M A := (@nil event, o).

Definition is_JSONDecodeError (e : exn) : bool :=
  (exn_cls e =? "JSONDecodeError") && is_Exception e.

(** The inner [try] of [execute_snippet], for whatever payload
    [json.loads] gave. *)
Definition invoke_values (generate_func : pyobj) (payload : pyval) (passcode : string)
    (api_key : option string) (key_order : option (list string)) : M pyval :=
  try_except
    (py_call generate_func
       [payload; PStr passcode; arg_api_key api_key; arg_key_order key_order])
    is_TypeError
    (fun te =>
       if fallback_applies te
       then handling te (py_call generate_func [payload; PStr passcode; arg_api_key api_key])
       else raise te).

(** [CryptoEngine.execute_snippet] as [on_generate] calls it: the code is
    what the snippet holds under [code], the payload what [json.loads]
    gave, neither of them checked. *)
Definition execute_snippet_values `{Runtime} (snippet_code payload : pyval)
    (passcode : string) (api_key : option string) (key_order : option (list string)) : M pyval :=
  try_except
    (local_scope <- match snippet_code with
                    | PStr code => py_exec code global_scope
                    | _ => raise (TypeError "exec() arg 1 must be a string, bytes or code object")
                    end ;;
     match dict_get local_scope "generate" with
     | None => raise (ValueError "Snippet must define a 'generate' function.")
     | Some generate_func => invoke_values generate_func payload passcode api_key key_order
     end)
    is_Exception
    (fun e => ret (PStr (error_text e))).

(** The body of the [try] of [on_generate]. *)
Definition on_generate_try `{Runtime} `{Json} (app : App) (snippet : pyval) : M App :=
  payload <- lift (json_loads (strip (textbox_get (gen_payload app)))) ;;
  let passcode := gen_passcode app in
  let apikey := gen_apikey app in
  let key_order := key_order_of_text (gen_keys app) in
  code <- lift (py_getitem snippet "code") ;;
  result <- execute_snippet_values code payload passcode (Some apikey) key_order ;;
  ret (with_output app (py_str result)).

(** Its two [except] clauses: [json.JSONDecodeError], then [Exception]. *)
Definition on_generate_except (app : App) (e : exn) : M App :=
  if is_JSONDecodeError e then ret (with_output app "Error: Invalid JSON Payload")
  else if is_Exception e then ret (with_output app ("Error: " ++ exn_msg e))
  else raise e.

(** [on_generate]: the click on Generate Hash. *)
Definition on_generate `{Runtime} `{Json} (app : App) : M App :=
  snippet <- lift (get_snippet (snippet_manager app) (algo_var app)) ;;
  if negb (truthy snippet) then ret (with_output app "Error: No snippet selected.")
  else catch (on_generate_try app snippet) (on_generate_except app).

(** [on_save_snippet]: the click on Save. *)
Definition on_save_snippet (app : App) (fs : filesystem) : outcome (App * filesystem) :=
  let name := strip (edit_name_entry app) in
  let code := strip (textbox_get (edit_code app)) in
  if negb (nonempty name) then Returned (with_placeholder app "NAME REQUIRED!", fs)
  else
    match update_snippet (snippet_manager app) fs name code EmptyString with
    | Raised e => Raised e
    | Returned (manager, fs') =>
        match refresh_algo_list (with_manager app manager) with
        | Raised e => Raised e
        | Returned app' => Returned (app', fs')
        end
    end.

(** [on_load_snippet_into_editor]: the click on Load. [selection] is what
    [SnippetSelectionDialog(self, names).get_input()] returns, the name
    picked or [None]. The window is returned as the handler leaves it, also
    when it raises. *)
Definition on_load_snippet_into_editor `{Tk} (app : App) (selection : option string)
    : App * outcome unit :=
  match get_all_names (snippet_manager app) with
  | Raised e => (app, Raised e)
  | Returned _ =>
      match selection with
      | None => (app, Returned tt)
      | Some name =>
          if negb (nonempty name) then (app, Returned tt)
          else
            match get_snippet (snippet_manager app) name with
            | Raised e => (app, Raised e)
            | Returned snippet =>
                if negb (truthy snippet) then (app, Returned tt)
                else
                  let app := with_name_entry app name in
                  let app := with_code app EmptyString in
                  match py_getitem snippet "code" with
                  | Raised e => (app, Raised e)
                  | Returned code => (with_code app (inserted_text code), Returned tt)
                  end
            end
      end
  end.

End App.

(** ** Inputs for the handlers *)

Module AppDemo.
Import Str Py Exc Snippet Engine Store StoreOps Text App Demo.

Definition example_payload_text : string :=
  let dq := String double_quote EmptyString in
  join newline
  [ "{";
    "  " ++ dq ++ "username" ++ dq ++ ": " ++ dq ++ "user" ++ dq ++ ",";
    "  " ++ dq ++ "request_time" ++ dq ++ ": " ++ dq ++ "20260101010101" ++ dq;
    "}" ].

(** What [json.loads] gives for the text the payload box starts with and
    for [[1, 2]]; any other text is taken for no JSON. *)
Definition demo_json_loads (text : string) : outcome pyval :=
  if text =? example_payload_text then Returned (PDict example_payload)
  else if text =? "[1, 2]" then Returned (PList [PInt 1; PInt 2])
  else Raised (JSONDecodeError "Expecting value: line 1 column 1 (char 0)").

Definition demo_json : Json := {| json_loads := demo_json_loads |}.

(** The collection [create_default_snippets] makes. *)
Definition default_snippets : pydict pyval :=
  [("ABA HMAC SHA256",
    PDict [("code", PStr default_code);
           ("description", PStr "Original ABA HMAC-SHA256 Implementation")])].

(** A manager that holds the default snippet. *)
Definition default_manager : SnippetManager :=
  {| filepath := "snippets.json"; snippets := PDict default_snippets |}.

(** The window after the example's passcode was typed, and a snippet
    into the editor. *)
Definition example_app : App :=
  {| snippet_manager := default_manager;
     algo_var := "ABA HMAC SHA256";
     algo_values := ["ABA HMAC SHA256"];
     gen_passcode := example_passcode;
     gen_apikey := EmptyString;
     gen_keys := EmptyString;
     gen_payload := example_payload_text;
     gen_output := EmptyString;
     edit_name_entry := "  legacy ";
     edit_name_placeholder := "Snippet Name";
     edit_code := legacy_code |}.

(** A text box that shows [str] of a value that is no string. *)
Definition demo_tk : Tk := {| tk_text := py_str |}.

(** The store after a snippet was written by hand without its code. *)
Definition codeless_manager : SnippetManager :=
  {| filepath := "snippets.json";
     snippets := PDict [("ABA HMAC SHA256", PDict [("description", PStr "to do")])] |}.

(** [snippets.json] holds a JSON array. *)
Definition array_fs : filesystem :=
  {| fs_files := [("snippets.json", JsonText (PList []))]; fs_readonly := [] |}.

(** The store after a snippet was written by hand with a number for code. *)
Definition number_manager : SnippetManager :=
  {| filepath := "snippets.json";
     snippets := PDict [("ABA HMAC SHA256", PDict [("code", PInt 5)])] |}.

(** No file yet, and [snippets.json] cannot be written. *)
Definition locked_fs : filesystem :=
  {| fs_files := []; fs_readonly := ["snippets.json"] |}.

End AppDemo.

Import Bytes Str Py Exc Snippet Engine Store Demo Spec.
Import Text StoreOps App AppDemo.

(** * Properties *)

(** ** Strings *)

Section StringFacts.

Lemma app_text_assoc (a b c : string) : (a ++ b) ++ c = a ++ (b ++ c).
Proof.
  induction a as [|ch a IH]; simpl.
  - reflexivity.
  - now rewrite IH.
Qed.

Lemma app_text_empty (a : string) : a ++ EmptyString = a.
Proof.
  induction a as [|ch a IH]; simpl; [reflexivity | now rewrite IH].
Qed.




Lemma prefix_app (p rest : string) : String.prefix p (p ++ rest) = true.
Proof.
  induction p as [|ch p IH]; simpl.
  - destruct rest; reflexivity.
  - destruct (ascii_dec ch ch) as [_|Hne]; [exact IH | now elim Hne].
Qed.

Lemma prefix_split (p s : string) :
  String.prefix p s = true -> exists rest, s = p ++ rest.
Proof.
  revert s. induction p as [|ch p IH]; intros s H.
  - exists s. reflexivity.
  - destruct s as [|ch' s]; simpl in H; [discriminate|].
    destruct (ascii_dec ch ch') as [->|_]; [|discriminate].
    destruct (IH s H) as [rest ->]. exists rest. reflexivity.
Qed.

Lemma contains_prefix (sub s : string) :
  String.prefix sub s = true -> contains sub s = true.
Proof.
  intros H. destruct s; cbn [contains]; rewrite H; reflexivity.
Qed.

Lemma contains_here (sub rest : string) : contains sub (sub ++ rest) = true.
Proof. apply contains_prefix, prefix_app. Qed.

Lemma contains_skip (sub a b : string) :
  contains sub b = true -> contains sub (a ++ b) = true.
Proof.
  intros H. induction a as [|ch a IH].
  - exact H.
  - change (String.prefix sub (String ch (a ++ b)) || contains sub (a ++ b) = true).
    rewrite IH. apply orb_true_r.
Qed.

(** Where a text occurs, so does each of its endings. *)
Lemma contains_ending (a b s : string) :
  contains (a ++ b) s = true -> contains b s = true.
Proof.
  induction s as [|ch s IH]; intros H.
  - cbn [contains] in H. rewrite orb_false_r in H.
    destruct (prefix_split _ _ H) as [rest E].
    destruct a; [|discriminate]. destruct b; [reflexivity | discriminate].
  - change (String.prefix (a ++ b) (String ch s) || contains (a ++ b) s = true) in H.
    apply orb_true_iff in H. destruct H as [H|H].
    + destruct (prefix_split _ _ H) as [rest ->].
      rewrite app_text_assoc. apply contains_skip, contains_here.
    + change (String.prefix b (String ch s) || contains b s = true).
      rewrite (IH H). apply orb_true_r.
Qed.

End StringFacts.

(** ** Python slices and the loop of [generate] *)

Section GenerateFacts.

Lemma slice_last_16 (s : string) :
  16 <= String.length s -> py_slice (Some (-16)%Z) None s = last_chars 16 s.
Proof.
  intros H. unfold py_slice, last_chars, clamp_index.
  replace (-16 <? 0)%Z with true by reflexivity.
  rewrite Z.max_l by lia.
  f_equal; lia.
Qed.

Lemma slice_but_last_16 (s : string) :
  16 <= String.length s -> py_slice None (Some (-16)%Z) s = all_but_last 16 s.
Proof.
  intros H. unfold py_slice, all_but_last, clamp_index.
  replace (-16 <? 0)%Z with true by reflexivity.
  rewrite Z.max_l by lia.
  f_equal; lia.
Qed.


Lemma field_text_value_text (payload : pydict pyval) (k : string) :
  field_text payload k = value_text payload k.
Proof.
  unfold field_text, value_text.
  destruct (dict_get payload k) as [v|]; [destruct v|]; reflexivity.
Qed.

Lemma loop_concat (f : string -> string) (keys : list string) (seed : string) :
  fold_left (fun acc k => acc ++ f k) keys seed = seed ++ concat_texts (map f keys).
Proof.
  revert seed. induction keys as [|k keys IH]; intros seed; simpl.
  - now rewrite app_text_empty.
  - rewrite IH, app_text_assoc. reflexivity.
Qed.

Lemma api_key_seed (api_key : option string) :
  match api_key with
  | Some (String c rest) => String c rest
  | Some EmptyString | None => EmptyString
  end = api_key_text api_key.
Proof.
  destruct api_key as [[|c rest]|]; reflexivity.
Qed.

Lemma keys_to_sign_default (payload : pydict pyval) :
  keys_to_sign payload None = default_key_order payload.
Proof.
  unfold keys_to_sign, dict_keys.
  induction payload as [|[k v] rest IH]; simpl.
  - reflexivity.
  - destruct (k =? "hash"); simpl; [exact IH|].
    destruct (k =? "__keys_order__"); simpl; [exact IH | now rewrite IH].
Qed.

Lemma keys_to_sign_empty (payload : pydict pyval) :
  keys_to_sign payload (Some []) = keys_to_sign payload None.
Proof. reflexivity. Qed.

Lemma keys_to_sign_given (payload : pydict pyval) (k : string) (ks : list string) :
  keys_to_sign payload (Some (k :: ks)) = k :: ks.
Proof. reflexivity. Qed.

(** What [generate] does with a passcode of 16 characters or more, by the
    keys it signs. *)
Lemma generate_valid (payload : pydict pyval) (passcode : string)
    (api_key : option string) (key_order : option (list string)) :
  16 <= String.length passcode ->
  let key := encode_utf8 (all_but_last 16 passcode) in
  let message :=
    encode_utf8 (last_chars 16 passcode ++ api_key_text api_key
                 ++ concat_texts (map (value_text payload) (keys_to_sign payload key_order))) in
  generate payload passcode api_key key_order
  = ([HmacSha256 key message], Returned (PStr (hex (SHA256.hmac key message)))).
Proof.
  intros H key message. unfold generate.
  destruct (Nat.ltb_spec (String.length passcode) 16) as [Hlt|_]; [lia|].
  rewrite slice_last_16, slice_but_last_16 by exact H.
  rewrite api_key_seed, loop_concat.
  rewrite (map_ext _ _ (field_text_value_text payload)).
  reflexivity.
Qed.

Lemma generate_short (payload : pydict pyval) (passcode : string)
    (api_key : option string) (key_order : option (list string)) :
  String.length passcode < 16 ->
  generate payload passcode api_key key_order
  = ([], Raised (ValueError "PassCode must be at least 16 characters long.")).
Proof.
  intros H. unfold generate.
  destruct (Nat.ltb_spec (String.length passcode) 16) as [_|Hge]; [reflexivity | lia].
Qed.

End GenerateFacts.

(** ** The digest text *)

Section DigestFacts.









End DigestFacts.

(** ** The reference signing algorithm *)

Section Generate.

Variables (payload : pydict pyval) (passcode : string).
Variables (api_key : option string).


(** C2. For every passcode shorter than 16 characters, whatever the payload,
    apiKey and keyOrder, [generate] raises the ValueError that says the
    passcode must be at least 16 characters long, and computes no HMAC. *)
Theorem generate_rejects_short_passcode (key_order : option (list string)) :
  String.length passcode < 16 ->
  exists msg,
    result (generate payload passcode api_key key_order) = Raised (ValueError msg)
    /\ contains "must be at least 16 characters" msg = true
    /\ events (generate payload passcode api_key key_order) = [].
Proof.
  intros Hlen. exists "PassCode must be at least 16 characters long.".
  rewrite (generate_short payload passcode api_key key_order Hlen).
  refine (conj eq_refl (conj _ eq_refl)).
  vm_compute. reflexivity.
Qed.

Lemma keys_to_sign_own_default :
  keys_to_sign payload (Some (default_key_order payload)) = keys_to_sign payload None.
Proof.
  destruct (default_key_order payload) as [|k ks] eqn:E.
  - reflexivity.
  - rewrite keys_to_sign_given, keys_to_sign_default. symmetry. exact E.
Qed.

(** [generate] reads its key order through [keys_to_sign] only. *)
Lemma generate_by_keys (order1 order2 : option (list string)) :
  keys_to_sign payload order1 = keys_to_sign payload order2 ->
  generate payload passcode api_key order1 = generate payload passcode api_key order2.
Proof.
  intros E. unfold generate. rewrite E. reflexivity.
Qed.

(** C3. For every payload, passcode and apiKey, [generate] without a
    keyOrder ends as [generate] with the keyOrder set to the default order:
    the payload keys in their order, [hash] and the ordering-metadata key
    left out. *)
Theorem generate_default_order_explicit :
  generate payload passcode api_key None
  = generate payload passcode api_key (Some (default_key_order payload)).
Proof.
  apply generate_by_keys. symmetry. apply keys_to_sign_own_default.
Qed.

(** C10. For every payload, passcode and apiKey, [generate] with an empty
    keyOrder ends as [generate] without one: the keys signed are those of
    the default order, not none. *)
Theorem generate_empty_order_is_absent :
  generate payload passcode api_key (Some [])
  = generate payload passcode api_key None
  /\ keys_to_sign payload (Some []) = default_key_order payload.
Proof.
  split.
  - apply generate_by_keys, keys_to_sign_empty.
  - rewrite keys_to_sign_empty. apply keys_to_sign_default.
Qed.


End Generate.


Lemma generate_rejects_short_passcode_example :
  exists msg,
    result (generate example_payload "tooshort" None None) = Raised (ValueError msg)
    /\ contains "must be at least 16 characters" msg = true
    /\ events (generate example_payload "tooshort" None None) = [].
Proof.
  apply generate_rejects_short_passcode. vm_compute. lia.
Defined.



(** ** The effect monad *)

Section MonadFacts.

Context {A : Type}.

Lemma try_except_returned (log : list event) (a : A) covers handler :
  try_except (log, Returned a) covers handler = (log, Returned a).
Proof. reflexivity. Qed.

Lemma try_except_passes (log : list event) (e : exn) covers (handler : exn -> M A) :
  covers e = false -> try_except (log, Raised e) covers handler = (log, Raised e).
Proof.
  intros H. unfold try_except. cbn. rewrite H. cbn. now rewrite app_nil_r.
Qed.

Lemma try_except_handles (log : list event) (e : exn) covers (handler : exn -> M A) :
  covers e = true ->
  try_except (log, Raised e) covers handler
  = ((log ++ events (handler e))%list, result (handler e)).
Proof.
  intros H. unfold try_except. cbn. rewrite H. now destruct (handler e).
Qed.

Lemma bind_returned {B : Type} (log : list event) (a : A) (k : A -> M B) :
  bind (log, Returned a) k = ((log ++ events (k a))%list, result (k a)).
Proof. cbn. now destruct (k a). Qed.

End MonadFacts.




(** ** The calls of the engine *)

Section Calls.

(** The first test of the except clause adds nothing to the second. *)
Lemma fallback_applies_argument (te : exn) :
  fallback_applies te = contains "argument" (exn_msg te).
Proof.
  unfold fallback_applies.
  destruct (contains "positional argument" (exn_msg te)) eqn:E; [|reflexivity].
  symmetry. apply (contains_ending "positional " "argument"). exact E.
Qed.

Lemma too_many_positional_argument (f : pyfunction) (given : nat) :
  contains "argument" (too_many_positional f given) = true.
Proof.
  unfold too_many_positional.
  apply contains_skip, contains_skip, contains_skip.
  apply (contains_skip "argument" " positional "), (contains_here "argument").
Qed.

Lemma missing_positional_argument (f : pyfunction) (given : nat) :
  contains "argument" (missing_positional f given) = true.
Proof.
  unfold missing_positional.
  apply contains_skip, contains_skip, contains_skip.
  apply (contains_skip "argument" " required positional "), (contains_here "argument").
Qed.

(** X5. Every arity mismatch of a function made by [def] raises a TypeError
    that passes the test of the except clause: too many arguments as too
    few. *)
Theorem arity_mismatch_applies (f : pyfunction) (args : list pyval) (log : list event) (e : exn) :
  (List.length (fn_params f) <? List.length args)%nat
  || (List.length args <? List.length (fn_params f) - List.length (fn_defaults f))%nat = true ->
  call_function f args = (log, Raised e) ->
  is_TypeError e = true /\ fallback_applies e = true.
Proof.
  intros Harity Hcall. unfold call_function in Hcall.
  destruct (List.length (fn_params f) <? List.length args)%nat.
  - injection Hcall as _ <-. split; [reflexivity|].
    rewrite fallback_applies_argument. apply too_many_positional_argument.
  - simpl in Harity. rewrite Harity in Hcall. injection Hcall as _ <-.
    split; [reflexivity|].
    rewrite fallback_applies_argument. apply missing_positional_argument.
Qed.

Variables (payload : pydict pyval) (passcode : string).
Variables (api_key : option string) (key_order : option (list string)).

(** The call with four arguments returned: no second call. *)
Lemma invoke_returned (g : pyobj) (log : list event) (v : pyval) :
  py_call g (args4 payload passcode api_key key_order) = (log, Returned v) ->
  invoke g payload passcode api_key key_order = (log, Returned v).
Proof.
  intros H. unfold invoke. rewrite H. apply try_except_returned.
Qed.

(** The call with four arguments raised something the clause lets go. *)
Lemma invoke_raised (g : pyobj) (log : list event) (e : exn) :
  py_call g (args4 payload passcode api_key key_order) = (log, Raised e) ->
  is_TypeError e && fallback_applies e = false ->
  invoke g payload passcode api_key key_order = (log, Raised e).
Proof.
  intros H Hno. unfold invoke. rewrite H. destruct (is_TypeError e) eqn:HT.
  - rewrite try_except_handles by exact HT. simpl in Hno. rewrite Hno.
    cbn. now rewrite app_nil_r.
  - apply try_except_passes, HT.
Qed.

(** The call with four arguments raised a TypeError that speaks of
    arguments: the call with three decides. *)
Lemma invoke_fallback (g : pyobj) (log : list event) (te : exn) :
  py_call g (args4 payload passcode api_key key_order) = (log, Raised te) ->
  is_TypeError te = true -> fallback_applies te = true ->
  invoke g payload passcode api_key key_order
  = ((log ++ events (py_call g (args3 payload passcode api_key)))%list,
     result (handling te (py_call g (args3 payload passcode api_key)))).
Proof.
  intros H HT Hfb. unfold invoke.
  rewrite H, try_except_handles by exact HT. rewrite Hfb.
  now destruct (py_call g (args3 payload passcode api_key)) as [log3 [v|e]].
Qed.

Context {R : Runtime}.

(** What passes the boundary of [execute_snippet]. *)
Lemma execute_boundary (code : string) :
  execute_snippet code payload passcode api_key key_order
  = match attempt code payload passcode api_key key_order with
    | (log, Returned v) => (log, Returned v)
    | (log, Raised e) =>
        if is_Exception e then (log, Returned (PStr (error_text e))) else (log, Raised e)
    end.
Proof.
  unfold execute_snippet.
  destruct (attempt code payload passcode api_key key_order) as [log [v|e]].
  - apply try_except_returned.
  - destruct (is_Exception e) eqn:HE.
    + rewrite try_except_handles by exact HE. cbn. now rewrite app_nil_r.
    + apply try_except_passes, HE.
Qed.

Lemma attempt_bound (code : string) (log : list event) (scope : pydict pyobj) (g : pyobj) :
  py_exec code global_scope = (log, Returned scope) ->
  dict_get scope "generate" = Some g ->
  attempt code payload passcode api_key key_order
  = ((log ++ events (invoke g payload passcode api_key key_order))%list,
     result (invoke g payload passcode api_key key_order)).
Proof.
  intros Hexec Hget. unfold attempt. rewrite Hexec, bind_returned, Hget. reflexivity.
Qed.

Lemma attempt_unbound (code : string) (log : list event) (scope : pydict pyobj) :
  py_exec code global_scope = (log, Returned scope) ->
  dict_get scope "generate" = None ->
  attempt code payload passcode api_key key_order
  = (log, Raised (ValueError "Snippet must define a 'generate' function.")).
Proof.
  intros Hexec Hget. unfold attempt. rewrite Hexec, bind_returned, Hget.
  cbn. now rewrite app_nil_r.
Qed.

End Calls.

(** ** Calling a [def] function *)

Section FunctionCalls.

Variables (payload : pydict pyval) (passcode : string).
Variables (api_key : option string) (key_order : option (list string)).

Lemma as_strings_map (ks : list string) : as_strings (map PStr ks) = Some ks.
Proof.
  induction ks as [|k ks IH]; simpl; [reflexivity | now rewrite IH].
Qed.

Lemma as_api_key_arg : as_api_key (arg_api_key api_key) = Some api_key.
Proof. destruct api_key; reflexivity. Qed.

Lemma as_key_order_arg : as_key_order (arg_key_order key_order) = Some key_order.
Proof.
  destruct key_order as [ks|]; simpl; [now rewrite as_strings_map | reflexivity].
Qed.

(** On the arguments [execute_snippet] passes, the default snippet's
    function is [generate]. *)
Lemma default_generate_call :
  py_call (def_function default_generate) (args4 payload passcode api_key key_order)
  = generate payload passcode api_key key_order.
Proof.
  unfold py_call, def_function, call_function, args4. cbn.
  now rewrite as_api_key_arg, as_key_order_arg.
Qed.

(** A function of three parameters called with four arguments. *)
Lemma three_parameters_four_arguments (f : pyfunction) :
  List.length (fn_params f) = 3 ->
  py_call (def_function f) (args4 payload passcode api_key key_order)
  = ([], Raised (TypeError (too_many_positional f 4))).
Proof.
  intros Hp. unfold py_call, def_function, call_function, args4.
  cbn [List.length]. rewrite Hp. reflexivity.
Qed.

(** A function of three parameters called with three arguments. *)
Lemma three_parameters_three_arguments (f : pyfunction) :
  List.length (fn_params f) = 3 -> List.length (fn_defaults f) <= 3 ->
  py_call (def_function f) (args3 payload passcode api_key)
  = fn_body f (args3 payload passcode api_key).
Proof.
  intros Hp Hd. unfold py_call, def_function, call_function, args3.
  cbn [List.length]. rewrite Hp.
  replace (3 <? 3)%nat with false by reflexivity.
  destruct (Nat.ltb_spec 3 (3 - List.length (fn_defaults f))) as [Hlt|_]; [lia|].
  rewrite skipn_all2 by lia. now rewrite app_nil_r.
Qed.

(** The function that takes [key_order] besides, called with four. *)
Lemma accepting_key_order_call (f : pyfunction) (default : list pyval) :
  List.length (fn_params f) = 3 ->
  py_call (def_function (accepting_key_order f default))
    (args4 payload passcode api_key key_order)
  = fn_body f (args3 payload passcode api_key).
Proof.
  intros Hp. unfold py_call, def_function, call_function, accepting_key_order, args4.
  cbn [fn_params fn_defaults fn_body fn_name List.length].
  rewrite length_app, Hp. cbn [List.length Nat.add].
  replace (4 <? 4)%nat with false by reflexivity.
  destruct (Nat.ltb_spec 4 (4 - List.length (fn_defaults f ++ default)%list)) as [Hlt|_]; [lia|].
  reflexivity.
Qed.

End FunctionCalls.

(** ** The invocation boundary *)

Section Boundary.

Context {R : Runtime}.
Variables (payload : pydict pyval) (passcode : string).
Variables (api_key : option string) (key_order : option (list string)).

(** C4, as amended. For every snippet whose [generate] is declared with three
    parameters, the call with four arguments fails with the arity TypeError,
    whose message holds [argument], and [execute_snippet] calls it again
    with three; when the entry point then returns a value, [execute_snippet]
    returns it, as it does for a snippet with the same body that takes
    [key_order] besides and does not read it. The second call is made
    exactly when the first raises a TypeError whose message holds
    [argument], whether the arity or the body of the entry point raised it. *)
Theorem three_parameter_entry_point_fallback
    (f : pyfunction) (code3 code4 : string) (scope3 scope4 : pydict pyobj)
    (log0 log : list event) (v : pyval) (default : list pyval) :
  List.length (fn_params f) = 3 -> List.length (fn_defaults f) <= 3 ->
  py_exec code3 global_scope = (log0, Returned scope3) ->
  dict_get scope3 "generate" = Some (def_function f) ->
  py_exec code4 global_scope = (log0, Returned scope4) ->
  dict_get scope4 "generate" = Some (def_function (accepting_key_order f default)) ->
  fn_body f (args3 payload passcode api_key) = (log, Returned v) ->
  let te := TypeError (too_many_positional f 4) in
  py_call (def_function f) (args4 payload passcode api_key key_order) = ([], Raised te)
  /\ is_TypeError te && fallback_applies te = true
  /\ execute_snippet code3 payload passcode api_key key_order
     = ((log0 ++ log)%list, Returned v)
  /\ execute_snippet code4 payload passcode api_key key_order
     = ((log0 ++ log)%list, Returned v)
  /\ (forall (g : pyobj) (log4 : list event) (e : exn),
        py_call g (args4 payload passcode api_key key_order) = (log4, Raised e) ->
        invoke g payload passcode api_key key_order
        = if is_TypeError e && contains "argument" (exn_msg e)
          then ((log4 ++ events (py_call g (args3 payload passcode api_key)))%list,
                result (handling e (py_call g (args3 payload passcode api_key))))
          else (log4, Raised e)).
Proof.
  intros Hp Hd Hexec3 Hget3 Hexec4 Hget4 Hbody te.
  pose proof (three_parameters_four_arguments payload passcode api_key key_order f Hp) as Hcall4.
  assert (Hfb : fallback_applies te = true).
  { rewrite fallback_applies_argument. apply too_many_positional_argument. }
  refine (conj Hcall4 (conj _ (conj _ (conj _ _)))).
  - change (is_TypeError te) with true. exact Hfb.
  - rewrite execute_boundary, (attempt_bound payload passcode api_key key_order code3 log0 scope3 _ Hexec3 Hget3).
    rewrite (invoke_fallback payload passcode api_key key_order _ _ _ Hcall4 eq_refl Hfb).
    rewrite three_parameters_three_arguments by assumption.
    rewrite Hbody. reflexivity.
  - rewrite execute_boundary, (attempt_bound payload passcode api_key key_order code4 log0 scope4 _ Hexec4 Hget4).
    rewrite (invoke_returned payload passcode api_key key_order _ log v).
    + reflexivity.
    + rewrite accepting_key_order_call by exact Hp. exact Hbody.
  - intros g log4 e Hcall. rewrite <- fallback_applies_argument.
    destruct (is_TypeError e && fallback_applies e) eqn:E.
    + apply andb_true_iff in E. destruct E as [HT HF].
      apply invoke_fallback; assumption.
    + apply invoke_raised; assumption.
Qed.

(** C5, as amended. For every snippet source whose evaluation ends without
    binding the name [generate], [execute_snippet] returns the text of the
    ValueError that names the missing [generate] function, and raises
    nothing. *)
Theorem execute_reports_missing_generate
    (code : string) (log : list event) (scope : pydict pyobj) :
  py_exec code global_scope = (log, Returned scope) ->
  dict_get scope "generate" = None ->
  let e := ValueError "Snippet must define a 'generate' function." in
  execute_snippet code payload passcode api_key key_order
  = (log, Returned (PStr ("Error: " ++ exn_msg e ++ newline ++ format_exc e)))
  /\ contains (quoted "generate") (exn_msg e) = true.
Proof.
  intros Hexec Hget e. split.
  - rewrite execute_boundary, (attempt_unbound payload passcode api_key key_order code log scope Hexec Hget). reflexivity.
  - vm_compute. reflexivity.
Qed.


(** C8, as amended. For every snippet whose [generate] is invoked and
    returns, [execute_snippet] returns that value as it is, a string or not;
    it is [on_generate] that writes [str] of it to the output box. *)
Theorem execute_returns_result_unchanged
    (code : string) (log log' : list event) (scope : pydict pyobj) (g : pyobj) (v : pyval) :
  py_exec code global_scope = (log, Returned scope) ->
  dict_get scope "generate" = Some g ->
  invoke g payload passcode api_key key_order = (log', Returned v) ->
  execute_snippet code payload passcode api_key key_order = ((log ++ log')%list, Returned v)
  /\ on_generate_output v = py_str v.
Proof.
  intros Hexec Hget Hinv. split.
  - rewrite execute_boundary, (attempt_bound payload passcode api_key key_order code log scope _ Hexec Hget), Hinv.
    reflexivity.
  - reflexivity.
Qed.

End Boundary.

(** C4, the claim as it stands fails: [picky_code] declares four parameters,
    so the call with four arguments is no arity mismatch; its body raises a
    TypeError that speaks of an argument, and [execute_snippet] makes the
    second call and returns what that one returns. *)
Lemma fallback_taken_without_arity_mismatch :
  List.length (fn_params picky_generate) = 4
  /\ py_call (def_function picky_generate)
       (args4 example_payload example_passcode (Some EmptyString) (Some ["username"]))
     = ([], Raised (TypeError "key_order argument is not supported"))
  /\ @execute_snippet demo_runtime picky_code example_payload example_passcode
       (Some EmptyString) (Some ["username"])
     = ([], Returned (PStr "signed without key order")).
Proof.
  split; [reflexivity|]. split; vm_compute; reflexivity.
Qed.

Lemma three_parameter_entry_point_fallback_example :
  @execute_snippet demo_runtime legacy_code example_payload example_passcode
    (Some EmptyString) (Some ["username"])
  = ([], Returned (PStr "legacy-digest"))
  /\ @execute_snippet demo_runtime legacy_key_order_code example_payload example_passcode
       (Some EmptyString) (Some ["username"])
     = ([], Returned (PStr "legacy-digest")).
Proof.
  destruct (three_parameter_entry_point_fallback (R := demo_runtime)
              example_payload example_passcode (Some EmptyString) (Some ["username"])
              legacy_generate legacy_code legacy_key_order_code
              [("generate", def_function legacy_generate)]
              [("generate", def_function legacy_key_order_generate)]
              [] [] (PStr "legacy-digest") [PNone]) as (_ & _ & H3 & H4 & _);
    try reflexivity.
  - vm_compute. lia.
  - split; assumption.
Defined.

(** C5, the claim as it stands fails: [generate = 5] defines no callable
    named [generate], and the text returned is that of the TypeError of the
    call, which does not name [generate]. *)
Lemma not_callable_generate_not_reported_missing :
  @execute_snippet demo_runtime not_callable_code example_payload example_passcode None None
  = ([], Returned (PStr (@error_text demo_runtime (TypeError "'int' object is not callable"))))
  /\ contains "generate" (exn_msg (TypeError "'int' object is not callable")) = false.
Proof.
  split; vm_compute; reflexivity.
Qed.

Lemma execute_reports_missing_generate_example :
  @execute_snippet demo_runtime sign_only_code example_payload example_passcode None None
  = ([], Returned (PStr (@error_text demo_runtime
                           (ValueError "Snippet must define a 'generate' function.")))).
Proof.
  apply (execute_reports_missing_generate (R := demo_runtime)
           example_payload example_passcode None None
           sign_only_code [] [("sign", def_function sign_function)]); reflexivity.
Defined.



(** C8, the claim as it stands fails: the entry point returns the number
    42, and [execute_snippet] returns the number, not the string. *)
Lemma number_result_not_coerced :
  @execute_snippet demo_runtime number_code example_payload example_passcode None None
  = ([], Returned (PInt 42))
  /\ PInt 42 <> PStr (py_str (PInt 42)).
Proof.
  split.
  - vm_compute. reflexivity.
  - discriminate.
Qed.

Lemma execute_returns_result_unchanged_example :
  @execute_snippet demo_runtime default_code example_payload example_passcode
    (Some EmptyString) None
  = ([HmacSha256 (encode_utf8 "mysecretkey1234")
        (encode_utf8 "5678901234567890user20260101010101")],
     Returned (PStr "44f974a553a90c2618052872a0ce303164150b80e8d9e55ebb00f5cbfa2b79fd")).
Proof.
  apply (execute_returns_result_unchanged (R := demo_runtime)
           example_payload example_passcode (Some EmptyString) None
           default_code []
           [HmacSha256 (encode_utf8 "mysecretkey1234")
              (encode_utf8 "5678901234567890user20260101010101")]
           [("generate", def_function default_generate)]
           (def_function default_generate)).
  - reflexivity.
  - reflexivity.
  - vm_compute. reflexivity.
Defined.

(** ** The store *)

Section StoreFacts.

Lemma dict_get_set_same {V : Type} (d : pydict V) (k : string) (v : V) :
  dict_get (dict_set d k v) k = Some v.
Proof.
  induction d as [|[k' v'] rest IH]; simpl.
  - now rewrite String.eqb_refl.
  - destruct (k' =? k) eqn:E; simpl; rewrite E; [reflexivity | exact IH].
Qed.

Lemma write_then_read (fs : filesystem) (path : string) (doc : pyval) :
  writable fs path = true ->
  let fs1 := snd (write_json fs path doc) in
  path_exists fs1 path = true /\ read_json fs1 path = Returned doc.
Proof.
  intros Hw fs1. subst fs1. unfold write_json, path_exists, dict_contains, read_json.
  rewrite Hw. cbn [snd fs_files]. now rewrite dict_get_set_same.
Qed.


End StoreFacts.



Lemma arity_mismatch_applies_example :
  is_TypeError (TypeError "generate() takes 3 positional arguments but 4 were given") = true
  /\ fallback_applies
       (TypeError "generate() takes 3 positional arguments but 4 were given") = true.
Proof.
  apply (arity_mismatch_applies legacy_generate
           (args4 example_payload example_passcode None None) []); reflexivity.
Defined.

(** ** The store on its first run, and on files it cannot use *)

Section StoreEdges.

Variables (self : SnippetManager) (fs : filesystem).

(** X1. A manager made on a path where no file stands, and that can be
    written, holds exactly one snippet, [ABA HMAC SHA256], with the default
    code, and the file holds that collection. *)
Theorem first_run_seeds_default (path : string) :
  path_exists fs path = false ->
  writable fs path = true ->
  let seeded :=
    PDict [("ABA HMAC SHA256",
            PDict [("code", PStr default_code);
                   ("description", PStr "Original ABA HMAC-SHA256 Implementation")])] in
  exists fs1 : filesystem,
    new_manager path fs = Returned ({| filepath := path; snippets := seeded |}, fs1)
    /\ read_json fs1 path = Returned seeded.
Proof.
  intros Hex Hw seeded.
  destruct (write_then_read fs path seeded Hw) as [Hex1 Hread].
  exists (snd (write_json fs path seeded)). split; [|exact Hread].
  unfold new_manager, load_snippets. cbn [filepath]. rewrite Hex.
  unfold create_default_snippets, save_snippets. cbn [snippets py_setitem dict_set].
  cbn [with_snippets filepath snippets]. fold seeded.
  destruct (write_json fs path seeded) as [[u|e] fs1] eqn:E; cbn [snd] in *;
    rewrite Hread; reflexivity.
Qed.

(** X2. A file that is there and holds no JSON leaves the manager with an
    empty collection: [load_snippets] returns, and the file is not touched. *)
Theorem load_fails_soft (text : string) :
  dict_get (fs_files fs) (filepath self) = Some (OtherText text) ->
  load_snippets self fs = Returned (with_snippets self (PDict []), fs).
Proof.
  intros Hfile. unfold load_snippets, path_exists, dict_contains, read_json.
  rewrite Hfile. cbn [filepath with_snippets]. rewrite Hfile. reflexivity.
Qed.

End StoreEdges.

Lemma first_run_seeds_default_example :
  exists fs1 : filesystem,
    new_manager "snippets.json" example_fs
    = Returned ({| filepath := "snippets.json";
                   snippets :=
                     PDict [("ABA HMAC SHA256",
                             PDict [("code", PStr default_code);
                                    ("description",
                                     PStr "Original ABA HMAC-SHA256 Implementation")])] |},
                fs1)
    /\ read_json fs1 "snippets.json"
       = Returned (PDict [("ABA HMAC SHA256",
                           PDict [("code", PStr default_code);
                                  ("description",
                                   PStr "Original ABA HMAC-SHA256 Implementation")])]).
Proof.
  apply (first_run_seeds_default example_fs "snippets.json"); reflexivity.
Defined.

Lemma load_fails_soft_example :
  load_snippets demo_manager garbled_fs
  = Returned (with_snippets demo_manager (PDict []), garbled_fs).
Proof.
  apply (load_fails_soft demo_manager garbled_fs "{ not json"). reflexivity.
Defined.

(** ** Texts: [strip] and [split] *)

Section TextFacts.

Lemma lstrip_length (s : string) : String.length (lstrip s) <= String.length s.
Proof.
  induction s as [|c rest IH]; simpl; [lia|].
  destruct (is_space c); simpl; lia.
Qed.

Lemma lstrip_fixed (s : string) :
  String.length (lstrip s) = String.length s -> lstrip s = s.
Proof.
  destruct s as [|c rest]; simpl; [reflexivity|].
  destruct (is_space c); [|reflexivity].
  pose proof (lstrip_length rest). simpl. lia.
Qed.

Lemma rstrip_length (s : string) : String.length (rstrip s) <= String.length s.
Proof.
  induction s as [|c rest IH]; simpl; [lia|].
  destruct (rstrip rest) as [|c' kept]; [destruct (is_space c)|]; simpl in *; lia.
Qed.

Lemma rstrip_fixed (s : string) :
  String.length (rstrip s) = String.length s -> rstrip s = s.
Proof.
  induction s as [|c rest IH]; simpl; [reflexivity|].
  destruct (rstrip rest) as [|c' kept] eqn:E.
  - destruct (is_space c); simpl; intros H; [discriminate|].
    destruct rest; [reflexivity | discriminate].
  - simpl. intros H. f_equal. apply IH. simpl. lia.
Qed.

(** A text [strip] leaves as it is has no blank to lose at either end. *)
Lemma strip_fixed (s : string) : strip s = s -> rstrip s = s /\ lstrip s = s.
Proof.
  unfold strip. intros H.
  pose proof (lstrip_length (rstrip s)) as H1.
  pose proof (rstrip_length s) as H2.
  rewrite H in H1.
  assert (Hr : rstrip s = s) by (apply rstrip_fixed; lia).
  split; [exact Hr|]. now rewrite Hr in H.
Qed.

Lemma lstrip_lstrip (s : string) : lstrip (lstrip s) = lstrip s.
Proof.
  induction s as [|c rest IH]; simpl; [reflexivity|].
  destruct (is_space c) eqn:E; [exact IH|]. simpl. now rewrite E.
Qed.

Lemma rstrip_rstrip (s : string) : rstrip (rstrip s) = rstrip s.
Proof.
  induction s as [|c rest IH]; simpl; [reflexivity|].
  destruct (rstrip rest) as [|c' kept] eqn:E.
  - destruct (is_space c) eqn:Ec; simpl; [reflexivity | now rewrite Ec].
  - change (rstrip (String c (String c' kept))) with
      (match rstrip (String c' kept) with
       | EmptyString => if is_space c then EmptyString else String c EmptyString
       | String c2 kept2 => String c (String c2 kept2)
       end).
    now rewrite IH.
Qed.

Lemma rstrip_lstrip (s : string) : rstrip s = s -> rstrip (lstrip s) = lstrip s.
Proof.
  induction s as [|c rest IH]; simpl; [reflexivity|].
  destruct (is_space c) eqn:Ec.
  - destruct (rstrip rest) as [|c' kept] eqn:E.
    + discriminate.
    + intros H. apply IH. congruence.
  - intros H. simpl. rewrite Ec. exact H.
Qed.

Lemma strip_strip (s : string) : strip (strip s) = strip s.
Proof.
  unfold strip.
  rewrite (rstrip_lstrip (rstrip s)) by apply rstrip_rstrip.
  apply lstrip_lstrip.
Qed.

Lemma has_char_lstrip (c : ascii) (s : string) :
  has_char c s = false -> has_char c (lstrip s) = false.
Proof.
  induction s as [|c' rest IH]; simpl; [reflexivity|].
  intros H. apply orb_false_iff in H as [H1 H2].
  destruct (is_space c'); [now apply IH|]. simpl. now rewrite H1, H2.
Qed.

Lemma has_char_rstrip (c : ascii) (s : string) :
  has_char c s = false -> has_char c (rstrip s) = false.
Proof.
  induction s as [|c' rest IH]; simpl; [reflexivity|].
  intros H. apply orb_false_iff in H as [H1 H2]. specialize (IH H2).
  destruct (rstrip rest) as [|c2 kept].
  - destruct (is_space c'); simpl; [reflexivity | now rewrite H1].
  - change (has_char c (String c' (String c2 kept)))
      with (Ascii.eqb c c' || has_char c (String c2 kept)).
    now rewrite H1, IH.
Qed.

Lemma has_char_strip (c : ascii) (s : string) :
  has_char c s = false -> has_char c (strip s) = false.
Proof.
  intros H. unfold strip. now apply has_char_lstrip, has_char_rstrip.
Qed.

(** A text of blanks only is stripped to nothing. *)
Lemma strip_blank (s : string) : all_chars is_space s = true -> strip s = EmptyString.
Proof.
  intros H. unfold strip.
  assert (Hr : rstrip s = EmptyString).
  { induction s as [|c rest IH]; simpl in *; [reflexivity|].
    apply andb_true_iff in H as [Hc Hrest]. now rewrite (IH Hrest), Hc. }
  now rewrite Hr.
Qed.

Lemma rstrip_blank (s : string) : all_chars is_space s = true -> rstrip s = EmptyString.
Proof.
  induction s as [|c rest IH]; simpl; [reflexivity|].
  intros H. apply andb_true_iff in H as [Hc Hrest]. now rewrite (IH Hrest), Hc.
Qed.

Lemma rstrip_app_blank (s b : string) :
  all_chars is_space b = true -> rstrip (s ++ b) = rstrip s.
Proof.
  intros H. induction s as [|c rest IH]; simpl; [now apply rstrip_blank|].
  now rewrite IH.
Qed.

Lemma strip_blank_app (a s : string) :
  all_chars is_space a = true -> strip (a ++ s) = strip s.
Proof.
  unfold strip. induction a as [|c rest IH]; simpl; [reflexivity|].
  intros H. apply andb_true_iff in H as [Hc Hrest]. specialize (IH Hrest).
  destruct (rstrip (rest ++ s)) as [|c' kept].
  - rewrite Hc. exact IH.
  - rewrite <- IH. simpl. now rewrite Hc.
Qed.

(** Blanks around a text are lost to [strip]. *)
Lemma strip_blank_around (a s b : string) :
  all_chars is_space a = true -> all_chars is_space b = true ->
  strip (a ++ s ++ b) = strip s.
Proof.
  intros Ha Hb. rewrite strip_blank_app by exact Ha.
  unfold strip. now rewrite rstrip_app_blank.
Qed.

Lemma split_not_empty (sep : ascii) (s : string) : split sep s <> [].
Proof.
  destruct s as [|c rest]; simpl; [discriminate|].
  destruct (Ascii.eqb c sep); [discriminate|].
  destruct (split sep rest); discriminate.
Qed.

(** No part [split] gives holds the separator. *)
Lemma split_parts (sep : ascii) (s : string) :
  Forall (fun part => has_char sep part = false) (split sep s).
Proof.
  induction s as [|c rest IH]; simpl.
  - constructor; [reflexivity | constructor].
  - destruct (Ascii.eqb c sep) eqn:E.
    + constructor; [reflexivity | exact IH].
    + destruct (split sep rest) as [|part parts].
      * constructor; [|constructor]. simpl. now rewrite Ascii.eqb_sym, E.
      * inversion IH as [|? ? Hpart Hparts]; subst.
        constructor; [|exact Hparts]. simpl. now rewrite Ascii.eqb_sym, E.
Qed.

Lemma split_whole (sep : ascii) (s : string) :
  has_char sep s = false -> split sep s = [s].
Proof.
  induction s as [|c rest IH]; simpl; [reflexivity|].
  intros H. apply orb_false_iff in H as [H1 H2].
  rewrite Ascii.eqb_sym, H1, (IH H2). reflexivity.
Qed.

Lemma split_at_separator (sep : ascii) (a b : string) :
  has_char sep a = false ->
  split sep (a ++ String sep b) = a :: split sep b.
Proof.
  induction a as [|c rest IH]; simpl.
  - intros _. now rewrite Ascii.eqb_refl.
  - intros H. apply orb_false_iff in H as [H1 H2].
    rewrite Ascii.eqb_sym, H1, (IH H2). reflexivity.
Qed.

Lemma rstrip_app (a b : string) (c : ascii) (kept : string) :
  rstrip b = String c kept -> rstrip (a ++ b) = a ++ rstrip b.
Proof.
  intros H. induction a as [|c' rest IH]; simpl; [reflexivity|].
  rewrite IH. destruct rest as [|c2 rest2]; simpl; now rewrite H.
Qed.

Lemma plain_key_parts (k : string) :
  plain_key k = true ->
  (exists c rest, k = String c rest /\ is_space c = false)
  /\ rstrip k = k /\ lstrip k = k /\ has_char comma k = false.
Proof.
  unfold plain_key, nonempty. intros H.
  apply andb_true_iff in H as [H Hcomma].
  apply andb_true_iff in H as [Hne Hstrip].
  apply String.eqb_eq in Hstrip. apply strip_fixed in Hstrip as [Hr Hl].
  apply negb_true_iff in Hcomma.
  refine (conj _ (conj Hr (conj Hl Hcomma))).
  destruct k as [|c rest]; [discriminate|].
  exists c, rest. split; [reflexivity|].
  simpl in Hl. destruct (is_space c); [|reflexivity].
  pose proof (lstrip_length rest) as Hlen. rewrite Hl in Hlen. simpl in Hlen. lia.
Qed.

(** The text [", ".join(keys)] of plain keys begins with the first key's
    first character and loses nothing to [strip]. *)
Lemma join_plain (k : string) (ks : list string) :
  forallb plain_key (k :: ks) = true ->
  (exists c rest, join ", " (k :: ks) = String c rest /\ is_space c = false)
  /\ rstrip (join ", " (k :: ks)) = join ", " (k :: ks)
  /\ split comma (join ", " (k :: ks)) = k :: map (String " ") ks.
Proof.
  revert k. induction ks as [|k2 ks IH]; intros k H.
  - simpl in H. apply andb_true_iff in H as [Hk _].
    apply plain_key_parts in Hk as (Hfirst & Hr & _ & Hcomma).
    simpl. refine (conj Hfirst (conj Hr _)). now apply split_whole.
  - change (forallb plain_key (k :: k2 :: ks))
      with (plain_key k && forallb plain_key (k2 :: ks)) in H.
    apply andb_true_iff in H as [Hk Hks].
    destruct (IH k2 Hks) as ((c2 & rest2 & Hjoin & Hc2) & Hr2 & Hsplit).
    apply plain_key_parts in Hk as ((c & rest & Hkeq & Hc) & Hr & _ & Hcomma).
    change (join ", " (k :: k2 :: ks))
      with (k ++ String comma (String " " (join ", " (k2 :: ks)))).
    refine (conj _ (conj _ _)).
    + exists c, (rest ++ String comma (String " " (join ", " (k2 :: ks)))).
      split; [now rewrite Hkeq | exact Hc].
    + assert (Htail : rstrip (String comma (String " " (join ", " (k2 :: ks))))
                      = String comma (String " " (join ", " (k2 :: ks)))).
      { rewrite Hjoin in Hr2 |- *. simpl in Hr2 |- *.
        destruct (rstrip rest2) as [|c3 kept3]; [destruct (is_space c2)|];
          try discriminate; now inversion Hr2. }
      pose proof (rstrip_app k _ comma _ Htail) as Happ.
      rewrite Happ, Htail. reflexivity.
    + rewrite split_at_separator by exact Hcomma.
      change (split comma (String " " (join ", " (k2 :: ks))))
        with (match split comma (join ", " (k2 :: ks)) with
              | part :: parts => String " " part :: parts
              | [] => [String " " EmptyString]
              end).
      rewrite Hsplit. reflexivity.
Qed.

Lemma strip_plain (k : string) : plain_key k = true -> strip k = k.
Proof.
  intros H. apply plain_key_parts in H as (_ & Hr & Hl & _).
  unfold strip. now rewrite Hr.
Qed.

Lemma strip_after_blank (k : string) :
  plain_key k = true -> strip (String " " k) = k.
Proof.
  intros H. apply plain_key_parts in H as ((c & rest & Hk & Hc) & Hr & Hl & _).
  unfold strip.
  change (rstrip (String " " k))
    with (match rstrip k with
          | EmptyString => if is_space " " then EmptyString else String " " EmptyString
          | String c' kept => String " " (String c' kept)
          end).
  rewrite Hr, Hk. rewrite <- Hk. exact Hl.
Qed.

Lemma existsb_eqb_In (x : string) (l : list string) :
  existsb (String.eqb x) l = true <-> In x l.
Proof.
  rewrite existsb_exists. split.
  - intros (y & Hy & E). apply String.eqb_eq in E. now subst.
  - intros H. exists x. split; [exact H | apply String.eqb_refl].
Qed.

End TextFacts.

(** ** Dicts *)

Section DictFacts.

Context {V : Type}.

Lemma dict_get_set_other (d : pydict V) (k k' : string) (v : V) :
  k' <> k -> dict_get (dict_set d k v) k' = dict_get d k'.
Proof.
  intros Hne. induction d as [|[k0 v0] rest IH]; simpl.
  - destruct (String.eqb_spec k k'); [congruence | reflexivity].
  - destruct (String.eqb_spec k0 k) as [->|Hk0]; simpl.
    + destruct (String.eqb_spec k k'); [congruence | reflexivity].
    + destruct (String.eqb_spec k0 k'); [reflexivity | exact IH].
Qed.

Lemma dict_contains_In (d : pydict V) (k : string) :
  dict_contains d k = true <-> In k (dict_keys d).
Proof.
  unfold dict_contains, dict_keys. induction d as [|[k0 v0] rest IH]; simpl.
  - split; [discriminate | contradiction].
  - destruct (String.eqb_spec k0 k) as [->|Hne].
    + split; [now left | reflexivity].
    + rewrite IH. split; [now right | intros [E|H]; [contradiction | exact H]].
Qed.

(** A key that is there stays where it is, a new key goes last. *)
Lemma dict_keys_set (d : pydict V) (k : string) (v : V) :
  dict_keys (dict_set d k v)
  = if dict_contains d k then dict_keys d else (dict_keys d ++ [k])%list.
Proof.
  unfold dict_contains, dict_keys. induction d as [|[k0 v0] rest IH]; simpl.
  - reflexivity.
  - destruct (String.eqb_spec k0 k) as [->|Hne]; simpl; [reflexivity|].
    rewrite IH. now destruct (dict_get rest k).
Qed.

Lemma dict_get_del_same (d : pydict V) (k : string) : dict_get (dict_del d k) k = None.
Proof.
  unfold dict_del. induction d as [|[k0 v0] rest IH]; simpl; [reflexivity|].
  destruct (String.eqb_spec k0 k) as [->|Hne]; simpl; [exact IH|].
  destruct (String.eqb_spec k0 k); [contradiction | exact IH].
Qed.

Lemma dict_get_del_other (d : pydict V) (k k' : string) :
  k' <> k -> dict_get (dict_del d k) k' = dict_get d k'.
Proof.
  intros Hne. unfold dict_del. induction d as [|[k0 v0] rest IH]; simpl; [reflexivity|].
  destruct (String.eqb_spec k0 k) as [->|Hk0]; simpl.
  - destruct (String.eqb_spec k k'); [congruence | exact IH].
  - destruct (String.eqb_spec k0 k'); [reflexivity | exact IH].
Qed.

Lemma dict_keys_del (d : pydict V) (k : string) :
  dict_keys (dict_del d k) = filter (fun k' => negb (k' =? k)) (dict_keys d).
Proof.
  unfold dict_del, dict_keys. induction d as [|[k0 v0] rest IH]; simpl; [reflexivity|].
  destruct (k0 =? k); simpl; [exact IH | now rewrite IH].
Qed.

End DictFacts.

(** ** The keys entry *)

Section KeyOrder.

Lemma key_order_of_stripped (text : string) :
  key_order_of_text (strip text) = key_order_of_text text.
Proof.
  unfold key_order_of_text. now rewrite strip_strip.
Qed.

Lemma blank_then_plain (ks : list string) :
  forallb plain_key ks = true ->
  map strip (filter (fun k => nonempty (strip k)) (map (String " ") ks)) = ks.
Proof.
  induction ks as [|k ks IH]; simpl; [reflexivity|].
  intros H. apply andb_true_iff in H as [Hk Hks].
  rewrite (strip_after_blank k Hk).
  assert (Hne : nonempty k = true).
  { unfold plain_key in Hk. apply andb_true_iff in Hk as [Hk _].
    now apply andb_true_iff in Hk as [Hk _]. }
  rewrite Hne. simpl. now rewrite (strip_after_blank k Hk), (IH Hks).
Qed.

Lemma key_order_of_join (ks : list string) :
  forallb plain_key ks = true ->
  key_order_of_text (join ", " ks)
  = match ks with [] => None | _ :: _ => Some ks end.
Proof.
  destruct ks as [|k ks]; [reflexivity|].
  intros H. destruct (join_plain k ks H) as ((c & rest & Hjoin & Hc) & Hr & Hsplit).
  assert (Hstrip : strip (join ", " (k :: ks)) = join ", " (k :: ks)).
  { unfold strip. rewrite Hr, Hjoin. simpl. now rewrite Hc. }
  unfold key_order_of_text. rewrite Hstrip, Hsplit.
  rewrite Hjoin. cbn [nonempty String.eqb negb]. f_equal.
  change (forallb plain_key (k :: ks)) with (plain_key k && forallb plain_key ks) in H.
  apply andb_true_iff in H as [Hk Hks].
  cbn [filter]. rewrite (strip_plain k Hk).
  assert (Hne : nonempty k = true).
  { unfold plain_key in Hk. apply andb_true_iff in Hk as [Hk' _].
    now apply andb_true_iff in Hk' as [Hk' _]. }
  rewrite Hne. cbn [map]. rewrite (strip_plain k Hk). f_equal.
  now apply blank_then_plain.
Qed.

(** X6. Whatever stands in the keys entry, the key order [on_generate]
    reads from it holds plain keys only: none is empty, none begins or ends
    with a blank, none holds a comma. *)
Theorem key_order_keys_plain (text : string) (ks : list string) :
  key_order_of_text text = Some ks -> forallb plain_key ks = true.
Proof.
  unfold key_order_of_text. destruct (nonempty (strip text)); [|discriminate].
  intros H. injection H as <-.
  apply forallb_forall. intros k Hin.
  apply in_map_iff in Hin as (part & <- & Hin).
  apply filter_In in Hin as [Hin Hne].
  unfold plain_key. rewrite Hne, strip_strip, String.eqb_refl. simpl.
  apply negb_true_iff, has_char_strip.
  pose proof (split_parts comma (strip text)) as Hall.
  rewrite Forall_forall in Hall. now apply Hall.
Qed.

(** X7. Plain keys written to the keys entry with a comma and a blank
    between them, and any blanks around the whole, are read back as they
    were, in their order, duplicates included; no keys at all are read back
    as no key order. *)
Theorem key_order_round_trip (ks : list string) (before after : string) :
  forallb plain_key ks = true ->
  all_chars is_space before = true ->
  all_chars is_space after = true ->
  key_order_of_text (before ++ join ", " ks ++ after)
  = match ks with [] => None | _ :: _ => Some ks end.
Proof.
  intros Hks Hb Ha.
  rewrite <- key_order_of_stripped, strip_blank_around by assumption.
  rewrite key_order_of_stripped. now apply key_order_of_join.
Qed.

End KeyOrder.

(** ** What the signature reads of the payload *)

Section Signing.

Variable passcode : string.

(** X8. The signature reads the apiKey and the payload through one text
    only, the apiKey followed by the values in the order signed, with
    nothing between them: two requests that give the same text, however
    it is cut into apiKey and fields, are signed alike. *)
Theorem generate_reads_concatenation (p1 p2 : pydict pyval) (a1 a2 : option string)
    (o1 o2 : option (list string)) :
  api_key_text a1 ++ concat_texts (map (value_text p1) (keys_to_sign p1 o1))
  = api_key_text a2 ++ concat_texts (map (value_text p2) (keys_to_sign p2 o2)) ->
  generate p1 passcode a1 o1 = generate p2 passcode a2 o2.
Proof.
  intros E. destruct (Nat.lt_ge_cases (String.length passcode) 16) as [Hs|Hl].
  - now rewrite !generate_short.
  - rewrite !generate_valid by exact Hl. cbv zeta. now rewrite E.
Qed.

Lemma keys_to_sign_hash_set (payload : pydict pyval) (v : pyval)
    (key_order : option (list string)) :
  keys_to_sign (dict_set payload "hash" v) key_order = keys_to_sign payload key_order.
Proof.
  assert (H : keys_to_sign (dict_set payload "hash" v) None = keys_to_sign payload None).
  { unfold keys_to_sign. rewrite dict_keys_set.
    destruct (dict_contains payload "hash"); [reflexivity|].
    rewrite filter_app. cbn [filter]. cbn. now rewrite app_nil_r. }
  destruct key_order as [[|k ks]|]; [exact H | reflexivity | exact H].
Qed.

Lemma keys_to_sign_no_hash (payload : pydict pyval) (key_order : option (list string)) :
  ~ In "hash" (match key_order with Some ks => ks | None => [] end) ->
  ~ In "hash" (keys_to_sign payload key_order).
Proof.
  assert (H : ~ In "hash" (keys_to_sign payload None)).
  { unfold keys_to_sign. intros Hin. apply filter_In in Hin as [_ Hin]. discriminate Hin. }
  destruct key_order as [[|k ks]|]; intros Hno; [exact H | exact Hno | exact H].
Qed.

(** X9. Unless the key order names it, the [hash] field of the payload
    is not signed: setting it, to any value, on a payload that has it or
    not, leaves [generate] as it was. *)
Theorem generate_ignores_hash_field (payload : pydict pyval) (api_key : option string)
    (key_order : option (list string)) (v : pyval) :
  ~ In "hash" (match key_order with Some ks => ks | None => [] end) ->
  generate (dict_set payload "hash" v) passcode api_key key_order
  = generate payload passcode api_key key_order.
Proof.
  intros Hno. destruct (Nat.lt_ge_cases (String.length passcode) 16) as [Hs|Hl].
  - now rewrite !generate_short.
  - rewrite !generate_valid by exact Hl. cbv zeta.
    rewrite keys_to_sign_hash_set.
    pose proof (keys_to_sign_no_hash payload key_order Hno) as Hkeys.
    rewrite (map_ext_in (value_text (dict_set payload "hash" v)) (value_text payload));
      [reflexivity|].
    intros k Hin. unfold value_text. rewrite dict_get_set_other; [reflexivity|].
    intros ->. contradiction.
Qed.

End Signing.

(** ** SnippetManager: what an operation keeps *)

Section StoreOpsFacts.

Variables (self : SnippetManager) (fs : filesystem).


(** X4. In a collection that is a mapping, [update_snippet] returns and
    changes the one entry: the name answers with the new code and
    description, every other name answers as before, and the names keep
    their order, a name that was there staying in its place and a new name
    going last. *)
Theorem update_keeps_other_snippets (d : pydict pyval) (name code description : string) :
  snippets self = PDict d ->
  exists (self1 : SnippetManager) (fs1 : filesystem),
    update_snippet self fs name code description = Returned (self1, fs1)
    /\ get_snippet self1 name = Returned (snippet_entry code description)
    /\ (forall other : string,
          other <> name -> get_snippet self1 other = get_snippet self other)
    /\ get_all_names self1
       = Returned (if dict_contains d name then dict_keys d
                   else (dict_keys d ++ [name])%list).
Proof.
  intros Hd.
  set (self1 := with_snippets self (PDict (dict_set d name (snippet_entry code description)))).
  exists self1, (snd (save_snippets self1 fs)).
  refine (conj _ (conj _ (conj _ _))).
  - unfold update_snippet. rewrite Hd. reflexivity.
  - unfold get_snippet. cbn [self1 snippets with_snippets].
    now rewrite dict_get_set_same.
  - intros other Hne. unfold get_snippet. cbn [self1 snippets with_snippets].
    rewrite Hd. now rewrite dict_get_set_other by exact Hne.
  - unfold get_all_names. cbn [self1 snippets with_snippets].
    now rewrite dict_keys_set.
Qed.

Lemma filter_absent (name : string) (keys : list string) :
  ~ In name keys -> filter (fun k => negb (k =? name)) keys = keys.
Proof.
  induction keys as [|k keys IH]; simpl; [reflexivity|].
  intros Hno. destruct (String.eqb_spec k name) as [->|Hne]; simpl.
  - exfalso. apply Hno. now left.
  - rewrite IH; [reflexivity|]. intros Hin. apply Hno. now right.
Qed.

(** X10. In a collection that is a mapping, [delete_snippet] returns for
    every name: afterwards the name answers [None], every other name
    answers as before, and the names left keep their order. For a name that
    is not stored nothing changes and no file is written. *)
Theorem delete_snippet_removes (d : pydict pyval) (name : string) :
  snippets self = PDict d ->
  exists (self1 : SnippetManager) (fs1 : filesystem),
    delete_snippet self fs name = Returned (self1, fs1)
    /\ get_snippet self1 name = Returned PNone
    /\ (forall other : string,
          other <> name -> get_snippet self1 other = get_snippet self other)
    /\ get_all_names self1
       = Returned (filter (fun k => negb (k =? name)) (dict_keys d))
    /\ (dict_contains d name = false -> self1 = self /\ fs1 = fs).
Proof.
  intros Hd. unfold delete_snippet. rewrite Hd. cbn [py_contains py_delitem].
  destruct (dict_contains d name) eqn:Hin.
  - eexists. eexists. split; [reflexivity|].
    unfold get_snippet, get_all_names. cbn [snippets with_snippets]. rewrite Hd.
    refine (conj _ (conj _ (conj _ _))).
    + now rewrite dict_get_del_same.
    + intros other Hne. now rewrite dict_get_del_other by exact Hne.
    + now rewrite dict_keys_del.
    + discriminate.
  - exists self, fs. split; [reflexivity|].
    unfold get_snippet, get_all_names. rewrite Hd.
    refine (conj _ (conj _ (conj _ _))).
    + unfold dict_contains in Hin. now destruct (dict_get d name).
    + reflexivity.
    + rewrite filter_absent; [reflexivity|].
      intros H. apply dict_contains_In in H. congruence.
    + intros _. split; reflexivity.
Qed.

(** X11. When the name is stored and the file can be written,
    [delete_snippet] leaves in the file the collection without the name: a
    manager made anew on the file is the manager after the deletion, and
    does not find the name. *)
Theorem delete_then_reload (d : pydict pyval) (name : string) :
  snippets self = PDict d ->
  dict_contains d name = true ->
  writable fs (filepath self) = true ->
  exists (self1 : SnippetManager) (fs1 : filesystem),
    delete_snippet self fs name = Returned (self1, fs1)
    /\ read_json fs1 (filepath self) = Returned (PDict (dict_del d name))
    /\ new_manager (filepath self) fs1 = Returned (self1, fs1)
    /\ get_snippet self1 name = Returned PNone.
Proof.
  intros Hd Hin Hw.
  set (self1 := with_snippets self (PDict (dict_del d name))).
  destruct (write_then_read fs (filepath self) (PDict (dict_del d name)) Hw) as [Hex Hread].
  assert (Hfs : snd (save_snippets self1 fs)
                = snd (write_json fs (filepath self) (PDict (dict_del d name)))).
  { unfold save_snippets. cbn [filepath snippets self1 with_snippets].
    now destruct (write_json fs (filepath self) (PDict (dict_del d name))) as [[u|e] fs']. }
  exists self1, (snd (save_snippets self1 fs)).
  refine (conj _ (conj _ (conj _ _))).
  - unfold delete_snippet. rewrite Hd. cbn [py_contains py_delitem]. now rewrite Hin.
  - now rewrite Hfs.
  - rewrite Hfs. unfold new_manager, load_snippets. cbn [filepath]. rewrite Hex.
    cbn [filepath with_snippets]. now rewrite Hread.
  - unfold get_snippet. cbn [self1 snippets with_snippets].
    now rewrite dict_get_del_same.
Qed.

(** X12. A first run where the file is not there and cannot be written:
    the default snippet is made in memory, the save fails and is not
    reported, the file that was to be read is still missing, and the
    manager is left with an empty collection, not even the default in it. *)
Theorem first_run_without_write_is_empty (path : string) :
  path_exists fs path = false ->
  writable fs path = false ->
  new_manager path fs = Returned ({| filepath := path; snippets := PDict [] |}, fs).
Proof.
  intros Hex Hw. unfold new_manager, load_snippets. cbn [filepath]. rewrite Hex.
  unfold create_default_snippets, save_snippets, write_json.
  cbn [snippets py_setitem with_snippets filepath]. rewrite Hw. cbn [snd].
  unfold read_json. unfold path_exists, dict_contains in Hex.
  cbn [filepath with_snippets].
  destruct (dict_get (fs_files fs) path); [discriminate | reflexivity].
Qed.

End StoreOpsFacts.

(** ** The handlers of the window *)

Section Handlers.

Context {R : Runtime} {J : Json}.

Lemma execute_values_link (code : string) (payload : pydict pyval) (passcode : string)
    (api_key : option string) (key_order : option (list string)) :
  execute_snippet_values (PStr code) (PDict payload) passcode api_key key_order
  = execute_snippet code payload passcode api_key key_order.
Proof. reflexivity. Qed.

(** What passes the boundary of [execute_snippet], whatever it was given. *)
Lemma execute_values_boundary (code payload : pyval) (passcode : string)
    (api_key : option string) (key_order : option (list string))
    (log : list event) (e : exn) :
  execute_snippet_values code payload passcode api_key key_order = (log, Raised e) ->
  is_Exception e = false.
Proof.
  unfold execute_snippet_values.
  match goal with |- try_except ?c _ _ = _ -> _ => destruct c as [log0 [v|e0]] end.
  - rewrite try_except_returned. discriminate.
  - destruct (is_Exception e0) eqn:HE.
    + rewrite try_except_handles by exact HE. discriminate.
    + rewrite try_except_passes by exact HE. intros H. now injection H as _ <-.
Qed.

Lemma on_generate_selected (app : App) (snippet : pyval) :
  get_snippet (snippet_manager app) (algo_var app) = Returned snippet ->
  on_generate app
  = if truthy snippet
    then catch (on_generate_try app snippet) (on_generate_except app)
    else ([], Returned (with_output app "Error: No snippet selected.")).
Proof.
  intros Hget. unfold on_generate. rewrite Hget. unfold lift.
  rewrite bind_returned. destruct (truthy snippet); cbn [negb].
  - now destruct (catch (on_generate_try app snippet) (on_generate_except app)).
  - reflexivity.
Qed.

Lemma on_generate_try_runs (app : App) (snippet payload code : pyval) :
  json_loads (strip (textbox_get (gen_payload app))) = Returned payload ->
  py_getitem snippet "code" = Returned code ->
  on_generate_try app snippet
  = (result <- execute_snippet_values code payload (gen_passcode app)
                 (Some (gen_apikey app)) (key_order_of_text (gen_keys app)) ;;
     ret (with_output app (py_str result))).
Proof.
  intros Hjson Hcode. unfold on_generate_try. rewrite Hjson, Hcode. unfold lift.
  rewrite !bind_returned. unfold events, result. cbn [fst snd List.app].
  match goal with |- _ = ?c => now destruct c end.
Qed.


(** The click with a snippet selected, for whatever the snippet holds
    under [code] and whatever the payload text parses to. *)
Lemma on_generate_runs (app : App) (snippet payload code : pyval) :
  get_snippet (snippet_manager app) (algo_var app) = Returned snippet ->
  truthy snippet = true ->
  json_loads (strip (textbox_get (gen_payload app))) = Returned payload ->
  py_getitem snippet "code" = Returned code ->
  on_generate app
  = (result <- execute_snippet_values code payload (gen_passcode app)
                 (Some (gen_apikey app)) (key_order_of_text (gen_keys app)) ;;
     ret (with_output app (py_str result))).
Proof.
  intros Hget Ht Hjson Hcode.
  rewrite (on_generate_selected app snippet Hget), Ht.
  rewrite (on_generate_try_runs app snippet payload code Hjson Hcode).
  destruct (execute_snippet_values code payload (gen_passcode app)
              (Some (gen_apikey app)) (key_order_of_text (gen_keys app)))
    as [log [v|e]] eqn:E.
  - reflexivity.
  - apply execute_values_boundary in E.
    cbn. unfold on_generate_except, is_JSONDecodeError. rewrite E, andb_false_r.
    cbn. now rewrite app_nil_r.
Qed.

Lemma entry_truthy (entry : pydict pyval) (key : string) (v : pyval) :
  dict_get entry key = Some v -> truthy (PDict entry) = true.
Proof.
  destruct entry; [discriminate | reflexivity].
Qed.



(** X15. A payload text that [json.loads] refuses is answered in the
    output box by [Error: Invalid JSON Payload]; any other [Exception] of
    the parser by [Error: ] and its message. The snippet is not run: no
    code is executed and no HMAC is computed. *)
Theorem on_generate_payload_error (app : App) (d : pydict pyval) (snippet : pyval)
    (e : exn) :
  snippets (snippet_manager app) = PDict d ->
  dict_get d (algo_var app) = Some snippet ->
  truthy snippet = true ->
  json_loads (strip (textbox_get (gen_payload app))) = Raised e ->
  is_Exception e = true ->
  on_generate app
  = ([], Returned (with_output app
                     (if exn_cls e =? "JSONDecodeError" then "Error: Invalid JSON Payload"
                      else "Error: " ++ exn_msg e))).
Proof.
  intros Hd Hsnippet Ht Hjson HE.
  rewrite (on_generate_selected app snippet) by (unfold get_snippet; now rewrite Hd, Hsnippet).
  rewrite Ht. unfold on_generate_try. rewrite Hjson. unfold lift.
  cbn. unfold on_generate_except, is_JSONDecodeError. rewrite HE, andb_true_r.
  now destruct (exn_cls e =? "JSONDecodeError").
Qed.

Lemma py_getitem_raised (obj : pyval) (key : string) (e : exn) :
  py_getitem obj key = Raised e ->
  is_Exception e = true /\ (exn_cls e =? "JSONDecodeError") = false.
Proof.
  destruct obj; cbn [py_getitem]; try (intros H; injection H as <-; split; reflexivity).
  destruct (dict_get d key); [discriminate|].
  intros H. injection H as <-. split; reflexivity.
Qed.

(** X16. A stored snippet that gives no code, an entry without the key
    [code] or a value that is no mapping, is answered in the output box by
    [Error: ] and the text of the lookup's exception, for an entry without
    the key the quoted name of the key; nothing is executed. *)
Theorem on_generate_snippet_without_code (app : App) (d : pydict pyval)
    (snippet payload : pyval) (e : exn) :
  snippets (snippet_manager app) = PDict d ->
  dict_get d (algo_var app) = Some snippet ->
  truthy snippet = true ->
  json_loads (strip (textbox_get (gen_payload app))) = Returned payload ->
  py_getitem snippet "code" = Raised e ->
  on_generate app = ([], Returned (with_output app ("Error: " ++ exn_msg e)))
  /\ (forall entry, snippet = PDict entry -> exn_msg e = "'code'").
Proof.
  intros Hd Hsnippet Ht Hjson Hcode. split.
  - rewrite (on_generate_selected app snippet)
      by (unfold get_snippet; now rewrite Hd, Hsnippet).
    rewrite Ht. unfold on_generate_try. rewrite Hjson, Hcode. unfold lift.
    destruct (py_getitem_raised _ _ _ Hcode) as [HE Hcls].
    cbn. unfold on_generate_except, is_JSONDecodeError. rewrite HE, Hcls. reflexivity.
  - intros entry ->. cbn [py_getitem] in Hcode.
    destruct (dict_get entry "code"); [discriminate|].
    injection Hcode as <-. reflexivity.
Qed.


(** X18. The default snippet with a passcode of fewer than 16
    characters: the click computes no HMAC and the output box receives the
    text of the ValueError, [Error: PassCode must be at least 16 characters
    long.], followed by the trace. *)
Theorem on_generate_default_short_passcode (app : App) (d entry payload : pydict pyval)
    (scope : pydict pyobj) :
  snippets (snippet_manager app) = PDict d ->
  dict_get d (algo_var app) = Some (PDict entry) ->
  dict_get entry "code" = Some (PStr default_code) ->
  py_exec default_code global_scope = ([], Returned scope) ->
  dict_get scope "generate" = Some (def_function default_generate) ->
  json_loads (strip (textbox_get (gen_payload app))) = Returned (PDict payload) ->
  String.length (gen_passcode app) < 16 ->
  on_generate app
  = ([], Returned (with_output app
                     (error_text
                        (ValueError "PassCode must be at least 16 characters long.")))).
Proof.
  intros Hd Hentry Hcode Hexec Hgen Hjson Hlen.
  rewrite (on_generate_runs app (PDict entry) (PDict payload) (PStr default_code));
    [| unfold get_snippet; now rewrite Hd, Hentry
     | exact (entry_truthy entry "code" _ Hcode)
     | exact Hjson
     | cbn [py_getitem]; now rewrite Hcode ].
  rewrite execute_values_link, execute_boundary.
  rewrite (attempt_bound payload (gen_passcode app) (Some (gen_apikey app))
             (key_order_of_text (gen_keys app)) default_code [] scope _ Hexec Hgen).
  rewrite (invoke_raised payload (gen_passcode app) (Some (gen_apikey app))
             (key_order_of_text (gen_keys app)) (def_function default_generate)
             [] (ValueError "PassCode must be at least 16 characters long."));
    [reflexivity | | reflexivity].
  rewrite default_generate_call. now apply generate_short.
Qed.

(** X19. A stored snippet whose [code] is no string, a number or a list
    in the file, is handed to [exec] as it is: the output box receives the
    text of the TypeError of [exec], followed by the trace, and nothing is
    executed. *)
Theorem on_generate_code_not_text (app : App) (d entry : pydict pyval)
    (code payload : pyval) :
  snippets (snippet_manager app) = PDict d ->
  dict_get d (algo_var app) = Some (PDict entry) ->
  dict_get entry "code" = Some code ->
  (forall text : string, code <> PStr text) ->
  json_loads (strip (textbox_get (gen_payload app))) = Returned payload ->
  on_generate app
  = ([], Returned (with_output app
                     (error_text
                        (TypeError "exec() arg 1 must be a string, bytes or code object")))).
Proof.
  intros Hd Hentry Hcode Hno Hjson.
  rewrite (on_generate_runs app (PDict entry) payload code);
    [| unfold get_snippet; now rewrite Hd, Hentry
     | exact (entry_truthy entry "code" _ Hcode)
     | exact Hjson
     | cbn [py_getitem]; now rewrite Hcode ].
  unfold execute_snippet_values.
  destruct code; try reflexivity. now destruct (Hno s).
Qed.

(** X20. [refresh_algo_list] over a collection that is a mapping: the
    menu lists the stored names in their order, or the one name [Default]
    when none is stored, so it is never empty; the selection is kept when
    it is listed and is the first name otherwise, so it is always listed;
    nothing else in the window changes. *)
Theorem refresh_selection_listed (app : App) (d : pydict pyval) :
  snippets (snippet_manager app) = PDict d ->
  exists app' : App,
    refresh_algo_list app = Returned app'
    /\ algo_values app'
       = match dict_keys d with [] => ["Default"] | _ :: _ => dict_keys d end
    /\ In (algo_var app') (algo_values app')
    /\ (In (algo_var app) (algo_values app') -> algo_var app' = algo_var app)
    /\ (~ In (algo_var app) (algo_values app')
        -> algo_var app' = hd EmptyString (algo_values app'))
    /\ app' = with_algo app (algo_var app') (algo_values app').
Proof.
  intros Hd. unfold refresh_algo_list, get_all_names. rewrite Hd.
  set (names := match dict_keys d with [] => ["Default"] | _ :: _ => dict_keys d end).
  assert (Hne : names <> []) by (subst names; destruct (dict_keys d); discriminate).
  destruct (existsb (String.eqb (algo_var app)) names) eqn:E; cbn [negb].
  - apply existsb_eqb_In in E.
    exists (with_algo app (algo_var app) names). cbn [algo_values algo_var with_algo].
    refine (conj eq_refl (conj eq_refl (conj E (conj _ (conj _ eq_refl))))).
    + reflexivity.
    + intros Hno. contradiction.
  - exists (with_algo app (hd EmptyString names) names). cbn [algo_values algo_var with_algo].
    refine (conj eq_refl (conj eq_refl (conj _ (conj _ (conj _ eq_refl))))).
    + destruct names; [contradiction | now left].
    + intros Hin. apply existsb_eqb_In in Hin. congruence.
    + reflexivity.
Qed.

(** X21. With nothing stored the menu offers [Default], which is no
    snippet: after [refresh_algo_list] the click on Generate Hash answers
    [Error: No snippet selected.], whatever the payload and the entries
    hold, and runs nothing. *)
Theorem on_generate_empty_store (app : App) :
  snippets (snippet_manager app) = PDict [] ->
  exists app' : App,
    refresh_algo_list app = Returned app'
    /\ algo_values app' = ["Default"]
    /\ algo_var app' = "Default"
    /\ on_generate app' = ([], Returned (with_output app' "Error: No snippet selected.")).
Proof.
  intros Hd. unfold refresh_algo_list, get_all_names. rewrite Hd. cbn [dict_keys map].
  assert (Hgen : forall selected : string,
            on_generate (with_algo app selected ["Default"])
            = ([], Returned (with_output (with_algo app selected ["Default"])
                               "Error: No snippet selected."))).
  { intros selected.
    rewrite (on_generate_selected _ PNone); [reflexivity|].
    unfold get_snippet. cbn [snippet_manager with_algo]. now rewrite Hd. }
  destruct (existsb (String.eqb (algo_var app)) ["Default"]) eqn:E; cbn [negb].
  - exists (with_algo app (algo_var app) ["Default"]).
    refine (conj eq_refl (conj eq_refl (conj _ (Hgen _)))).
    cbn [algo_var with_algo]. cbn [existsb] in E. rewrite orb_false_r in E.
    now apply String.eqb_eq in E.
  - exists (with_algo app "Default" ["Default"]).
    exact (conj eq_refl (conj eq_refl (conj eq_refl (Hgen _)))).
Qed.

Lemma strip_textbox (text : string) : strip (textbox_get text) = strip text.
Proof.
  unfold textbox_get, strip. now rewrite rstrip_app_blank.
Qed.

(** The click on Save with a name, by what it leaves. *)
Lemma on_save_snippet_runs (app : App) (fs : filesystem) (d : pydict pyval) :
  snippets (snippet_manager app) = PDict d ->
  nonempty (strip (edit_name_entry app)) = true ->
  let name := strip (edit_name_entry app) in
  let code := strip (edit_code app) in
  let d1 := dict_set d name (snippet_entry code EmptyString) in
  let manager := with_snippets (snippet_manager app) (PDict d1) in
  on_save_snippet app fs
  = Returned (with_algo (with_manager app manager)
                (if existsb (String.eqb (algo_var app)) (dict_keys d1)
                 then algo_var app else hd EmptyString (dict_keys d1))
                (dict_keys d1),
              snd (save_snippets manager fs)).
Proof.
  intros Hd Hname name code d1 manager.
  assert (Hkeys : In name (dict_keys d1)).
  { apply dict_contains_In. unfold dict_contains. subst d1.
    now rewrite dict_get_set_same. }
  unfold on_save_snippet. rewrite strip_textbox. fold name code. fold name in Hname.
  rewrite Hname. cbn [negb]. unfold update_snippet. rewrite Hd. cbn [py_setitem].
  fold d1 manager. unfold refresh_algo_list, get_all_names.
  cbn [snippet_manager with_manager manager with_snippets snippets algo_var].
  destruct (dict_keys d1) as [|k ks] eqn:E; [contradiction|].
  now destruct (existsb (String.eqb (algo_var app)) (k :: ks)).
Qed.

(** X22. The click on Save with a name that is not blank, over a
    collection that is a mapping: the snippet is stored under the name
    without the blanks around it, with the code without the blanks around
    it and an empty description; the menu lists the name; the selection
    stays where it was when it named a stored snippet, so the saved
    snippet is not selected by the click; and when the file can be
    written it holds the collection in memory. *)
Theorem on_save_snippet_stores (app : App) (fs : filesystem) (d : pydict pyval) :
  snippets (snippet_manager app) = PDict d ->
  nonempty (strip (edit_name_entry app)) = true ->
  let name := strip (edit_name_entry app) in
  let code := strip (edit_code app) in
  exists (app' : App) (fs' : filesystem),
    on_save_snippet app fs = Returned (app', fs')
    /\ get_snippet (snippet_manager app') name = Returned (snippet_entry code EmptyString)
    /\ In name (algo_values app')
    /\ In (algo_var app') (algo_values app')
    /\ (In (algo_var app) (dict_keys d) -> algo_var app' = algo_var app)
    /\ (writable fs (filepath (snippet_manager app)) = true ->
        read_json fs' (filepath (snippet_manager app))
        = Returned (snippets (snippet_manager app'))).
Proof.
  intros Hd Hname name code.
  pose proof (on_save_snippet_runs app fs d Hd Hname) as Hruns. cbv zeta in Hruns.
  fold name code in Hruns.
  set (d1 := dict_set d name (snippet_entry code EmptyString)) in *.
  set (manager := with_snippets (snippet_manager app) (PDict d1)) in *.
  assert (Hkeys : In name (dict_keys d1)).
  { apply dict_contains_In. unfold dict_contains. subst d1.
    now rewrite dict_get_set_same. }
  assert (Hold : In (algo_var app) (dict_keys d) -> In (algo_var app) (dict_keys d1)).
  { subst d1. rewrite dict_keys_set.
    destruct (dict_contains d name); [tauto | intros H; apply in_or_app; now left]. }
  eexists. eexists. split; [exact Hruns|].
  cbn [snippet_manager with_algo with_manager algo_values algo_var].
  refine (conj _ (conj Hkeys (conj _ (conj _ _)))).
  - unfold get_snippet. cbn [snippets manager with_snippets]. subst d1.
    now rewrite dict_get_set_same.
  - destruct (existsb (String.eqb (algo_var app)) (dict_keys d1)) eqn:E.
    + now apply existsb_eqb_In.
    + destruct (dict_keys d1); [contradiction | now left].
  - intros Hin. apply Hold, existsb_eqb_In in Hin. now rewrite Hin.
  - intros Hw. unfold save_snippets. cbn [filepath snippets manager with_snippets].
    pose proof (write_then_read fs (filepath (snippet_manager app)) (PDict d1) Hw) as [_ Hr].
    now destruct (write_json fs (filepath (snippet_manager app)) (PDict d1)) as [[u|e] fs1].
Qed.

(** X23. The click on Save with a name entry that is empty or holds
    blanks only stores nothing and writes no file: the entry's placeholder
    asks for a name, and the window and the files are otherwise as they
    were. *)
Theorem on_save_snippet_needs_name (app : App) (fs : filesystem) :
  all_chars is_space (edit_name_entry app) = true ->
  on_save_snippet app fs = Returned (with_placeholder app "NAME REQUIRED!", fs).
Proof.
  intros H. unfold on_save_snippet. now rewrite (strip_blank _ H).
Qed.

(** X24. [load_snippets] takes whatever JSON value the file holds for the
    collection, without a test that it is an object: on a file that holds
    another value the manager is made, and then [get_snippet] and
    [refresh_algo_list], which the window calls while it is built, raise
    AttributeError and [update_snippet] raises TypeError; the file is left
    as it was. *)
Theorem collection_not_validated (fs : filesystem) (path : string) (doc : pyval)
    (app : App) (name code description : string) :
  (forall d : pydict pyval, doc <> PDict d) ->
  dict_get (fs_files fs) path = Some (JsonText doc) ->
  let manager := {| filepath := path; snippets := doc |} in
  new_manager path fs = Returned (manager, fs)
  /\ get_snippet manager name
     = Raised (AttributeError (quoted (type_name doc) ++ " object has no attribute 'get'"))
  /\ refresh_algo_list (with_manager app manager)
     = Raised (AttributeError (quoted (type_name doc) ++ " object has no attribute 'keys'"))
  /\ exists e : exn,
       update_snippet manager fs name code description = Raised e
       /\ is_TypeError e = true.
Proof.
  intros Hdoc Hfile manager.
  refine (conj _ (conj _ (conj _ _))).
  - unfold new_manager, load_snippets, path_exists, dict_contains, read_json.
    cbn [filepath]. rewrite Hfile. cbn [filepath with_snippets]. now rewrite Hfile.
  - unfold get_snippet. cbn [manager snippets].
    destruct doc; try reflexivity. now destruct (Hdoc d).
  - unfold refresh_algo_list, get_all_names. cbn [snippet_manager with_manager manager snippets].
    destruct doc; try reflexivity. now destruct (Hdoc d).
  - unfold update_snippet. cbn [manager snippets].
    destruct doc; cbn [py_setitem]; try (eexists; split; reflexivity).
    now destruct (Hdoc d).
Qed.

(** X25. Load, then Save with nothing typed between, over a collection
    that is a mapping, for a stored snippet with a plain name whose code is
    a string: the editor shows the name and the code, and the click on Save
    stores the code without the blanks around it under the same name, in
    the same place among the names, with an empty description, whatever
    description the snippet had. *)
Theorem load_then_save_drops_description {T : Tk} (app : App) (fs : filesystem)
    (d entry : pydict pyval) (name code : string) :
  snippets (snippet_manager app) = PDict d ->
  dict_get d name = Some (PDict entry) ->
  dict_get entry "code" = Some (PStr code) ->
  nonempty name = true ->
  strip name = name ->
  exists (loaded saved : App) (fs' : filesystem),
    on_load_snippet_into_editor app (Some name) = (loaded, Returned tt)
    /\ edit_name_entry loaded = name
    /\ edit_code loaded = code
    /\ on_save_snippet loaded fs = Returned (saved, fs')
    /\ get_snippet (snippet_manager saved) name
       = Returned (snippet_entry (strip code) EmptyString)
    /\ get_all_names (snippet_manager saved) = Returned (dict_keys d).
Proof.
  intros Hd Hentry Hcode Hne Hstrip.
  set (loaded := with_code (with_code (with_name_entry app name) EmptyString) code).
  assert (Hload : on_load_snippet_into_editor app (Some name) = (loaded, Returned tt)).
  { unfold on_load_snippet_into_editor, get_all_names, get_snippet.
    rewrite Hd, Hne, Hentry. cbn [negb].
    rewrite (entry_truthy entry "code" _ Hcode). cbn [negb py_getitem].
    now rewrite Hcode. }
  assert (Hname : nonempty (strip (edit_name_entry loaded)) = true).
  { cbn [loaded edit_name_entry with_code with_name_entry]. now rewrite Hstrip. }
  pose proof (on_save_snippet_runs loaded fs d Hd Hname) as Hruns. cbv zeta in Hruns.
  cbn [loaded edit_name_entry edit_code with_code with_name_entry] in Hruns.
  rewrite Hstrip in Hruns.
  eexists. eexists. eexists. split; [exact Hload|].
  refine (conj eq_refl (conj eq_refl (conj Hruns _))).
  unfold get_snippet, get_all_names.
  cbn [snippet_manager with_algo with_manager snippets with_snippets].
  rewrite dict_get_set_same, dict_keys_set. unfold dict_contains. rewrite Hentry.
  split; reflexivity.
Qed.

Lemma filter_keys_order (keys : list string) :
  ~ In "__keys_order__" keys ->
  filter (fun k => negb (k =? "hash")) keys
  = filter (fun k => negb (k =? "hash") && negb (k =? "__keys_order__")) keys.
Proof.
  intros Hno. apply filter_ext_in. intros k Hin.
  destruct (String.eqb_spec k "__keys_order__") as [->|Hne]; [contradiction|].
  now rewrite andb_true_r.
Qed.

(** X26. The keys entry after [_try_extract_keys], for a payload text
    that parses to an object with plain keys: the key order [on_generate]
    reads from the entry is the payload's keys in their order without
    [hash], and no key order when none is left. Unless the payload has a
    key [__keys_order__], which the entry lists and the snippet's default
    leaves out, the default snippet signs with that order as it signs
    without a key order. *)
Theorem extracted_order_signs_as_default (app : App) (data : pydict pyval)
    (passcode : string) (api_key : option string) :
  nonempty (strip (textbox_get (gen_payload app))) = true ->
  json_loads (strip (textbox_get (gen_payload app))) = Returned (PDict data) ->
  forallb plain_key (extracted_keys data) = true ->
  let order := key_order_of_text (gen_keys (try_extract_keys app)) in
  order = match extracted_keys data with
          | [] => None
          | _ :: _ => Some (extracted_keys data)
          end
  /\ (dict_contains data "__keys_order__" = false ->
      generate data passcode api_key order = generate data passcode api_key None).
Proof.
  intros Hne Hjson Hplain order.
  assert (Horder : order = match extracted_keys data with
                           | [] => None
                           | _ :: _ => Some (extracted_keys data)
                           end).
  { subst order. unfold try_extract_keys. rewrite Hne, Hjson. cbn [negb].
    destruct (strip (gen_keys app) =? join ", " (extracted_keys data)) eqn:E; cbn [negb].
    - apply String.eqb_eq in E.
      rewrite <- key_order_of_stripped, E. now apply key_order_of_join.
    - cbn [gen_keys with_keys]. now apply key_order_of_join. }
  split; [exact Horder|].
  intros Hno. apply generate_by_keys. rewrite Horder.
  destruct (extracted_keys data) as [|k ks] eqn:Ek; [reflexivity|].
  rewrite keys_to_sign_given, <- Ek. unfold extracted_keys, keys_to_sign.
  apply filter_keys_order. intros Hin. apply dict_contains_In in Hin. congruence.
Qed.

End Handlers.

(** ** The properties above on the example's inputs *)

Lemma key_order_keys_plain_example : forallb plain_key ["a"; "b"; "c"] = true.
Proof.
  apply (key_order_keys_plain " a, b ,,c " ["a"; "b"; "c"]). reflexivity.
Defined.

Lemma key_order_round_trip_example :
  key_order_of_text (" " ++ join ", " ["username"; "request_time"] ++ "  ")
  = Some ["username"; "request_time"].
Proof.
  apply (key_order_round_trip ["username"; "request_time"] " " "  "); reflexivity.
Defined.

Lemma generate_reads_concatenation_example :
  generate [("amount", PStr "0"); ("tran_id", PStr "07")] example_passcode (Some "k1") None
  = generate [("amount", PStr "100"); ("tran_id", PStr "7")] example_passcode (Some "k") None.
Proof.
  apply (generate_reads_concatenation example_passcode). reflexivity.
Defined.

Lemma generate_ignores_hash_field_example :
  generate (dict_set example_payload "hash" (PStr "44f974a5")) example_passcode None None
  = generate example_payload example_passcode None None.
Proof.
  apply (generate_ignores_hash_field example_passcode example_payload None None).
  intros H. exact H.
Defined.

Lemma update_keeps_other_snippets_example :
  exists (self1 : SnippetManager) (fs1 : filesystem),
    update_snippet default_manager example_fs "legacy" legacy_code EmptyString
    = Returned (self1, fs1)
    /\ get_snippet self1 "legacy" = Returned (snippet_entry legacy_code EmptyString)
    /\ (forall other : string,
          other <> "legacy" -> get_snippet self1 other = get_snippet default_manager other)
    /\ get_all_names self1 = Returned ["ABA HMAC SHA256"; "legacy"].
Proof.
  apply (update_keeps_other_snippets default_manager example_fs default_snippets
           "legacy" legacy_code EmptyString).
  reflexivity.
Defined.

Lemma delete_snippet_removes_example :
  exists (self1 : SnippetManager) (fs1 : filesystem),
    delete_snippet default_manager example_fs "ABA HMAC SHA256" = Returned (self1, fs1)
    /\ get_snippet self1 "ABA HMAC SHA256" = Returned PNone
    /\ (forall other : string,
          other <> "ABA HMAC SHA256"
          -> get_snippet self1 other = get_snippet default_manager other)
    /\ get_all_names self1 = Returned []
    /\ (dict_contains default_snippets "ABA HMAC SHA256" = false
        -> self1 = default_manager /\ fs1 = example_fs).
Proof.
  apply (delete_snippet_removes default_manager example_fs default_snippets
           "ABA HMAC SHA256").
  reflexivity.
Defined.

Lemma delete_then_reload_example :
  exists (self1 : SnippetManager) (fs1 : filesystem),
    delete_snippet default_manager example_fs "ABA HMAC SHA256" = Returned (self1, fs1)
    /\ read_json fs1 "snippets.json" = Returned (PDict [])
    /\ new_manager "snippets.json" fs1 = Returned (self1, fs1)
    /\ get_snippet self1 "ABA HMAC SHA256" = Returned PNone.
Proof.
  apply (delete_then_reload default_manager example_fs default_snippets
           "ABA HMAC SHA256"); reflexivity.
Defined.



Lemma on_generate_payload_error_example :
  @on_generate demo_runtime demo_json (with_payload example_app "{")
  = ([], Returned (with_output (with_payload example_app "{")
                     "Error: Invalid JSON Payload")).
Proof.
  apply (on_generate_payload_error (R := demo_runtime) (J := demo_json)
           (with_payload example_app "{") default_snippets
           (PDict [("code", PStr default_code);
                   ("description", PStr "Original ABA HMAC-SHA256 Implementation")])
           (JSONDecodeError "Expecting value: line 1 column 1 (char 0)"));
    reflexivity.
Defined.

Lemma on_generate_snippet_without_code_example :
  @on_generate demo_runtime demo_json (with_manager example_app codeless_manager)
  = ([], Returned (with_output (with_manager example_app codeless_manager)
                     ("Error: " ++ exn_msg (KeyError "code"))))
  /\ (forall entry : pydict pyval,
        PDict [("description", PStr "to do")] = PDict entry
        -> exn_msg (KeyError "code") = "'code'").
Proof.
  apply (on_generate_snippet_without_code (R := demo_runtime) (J := demo_json)
           (with_manager example_app codeless_manager)
           [("ABA HMAC SHA256", PDict [("description", PStr "to do")])]
           (PDict [("description", PStr "to do")]) (PDict example_payload)
           (KeyError "code")); reflexivity.
Defined.


Lemma refresh_selection_listed_example :
  exists app' : App,
    refresh_algo_list (with_manager example_app demo_manager) = Returned app'
    /\ algo_values app' = ["Default"]
    /\ In (algo_var app') (algo_values app')
    /\ (In "ABA HMAC SHA256" (algo_values app') -> algo_var app' = "ABA HMAC SHA256")
    /\ (~ In "ABA HMAC SHA256" (algo_values app')
        -> algo_var app' = hd EmptyString (algo_values app'))
    /\ app' = with_algo (with_manager example_app demo_manager)
                (algo_var app') (algo_values app').
Proof.
  apply (refresh_selection_listed (with_manager example_app demo_manager) []).
  reflexivity.
Defined.

Lemma on_generate_empty_store_example :
  exists app' : App,
    refresh_algo_list (with_manager example_app demo_manager) = Returned app'
    /\ algo_values app' = ["Default"]
    /\ algo_var app' = "Default"
    /\ @on_generate demo_runtime demo_json app'
       = ([], Returned (with_output app' "Error: No snippet selected.")).
Proof.
  apply (on_generate_empty_store (R := demo_runtime) (J := demo_json)
           (with_manager example_app demo_manager)).
  reflexivity.
Defined.

Lemma on_save_snippet_stores_example :
  exists (app' : App) (fs' : filesystem),
    on_save_snippet example_app example_fs = Returned (app', fs')
    /\ get_snippet (snippet_manager app') "legacy"
       = Returned (snippet_entry legacy_code EmptyString)
    /\ In "legacy" (algo_values app')
    /\ In (algo_var app') (algo_values app')
    /\ (In "ABA HMAC SHA256" (dict_keys default_snippets)
        -> algo_var app' = "ABA HMAC SHA256")
    /\ (writable example_fs "snippets.json" = true
        -> read_json fs' "snippets.json" = Returned (snippets (snippet_manager app'))).
Proof.
  apply (on_save_snippet_stores example_app example_fs default_snippets); reflexivity.
Defined.

Lemma on_save_snippet_needs_name_example :
  on_save_snippet (with_name_entry example_app "   ") example_fs
  = Returned (with_placeholder (with_name_entry example_app "   ") "NAME REQUIRED!",
              example_fs).
Proof.
  apply (on_save_snippet_needs_name (with_name_entry example_app "   ") example_fs).
  reflexivity.
Defined.

Lemma collection_not_validated_example :
  let manager := {| filepath := "snippets.json"; snippets := PList [] |} in
  new_manager "snippets.json" array_fs = Returned (manager, array_fs)
  /\ get_snippet manager "legacy"
     = Raised (AttributeError "'list' object has no attribute 'get'")
  /\ refresh_algo_list (with_manager example_app manager)
     = Raised (AttributeError "'list' object has no attribute 'keys'")
  /\ exists e : exn,
       update_snippet manager array_fs "legacy" legacy_code EmptyString = Raised e
       /\ is_TypeError e = true.
Proof.
  apply (collection_not_validated array_fs "snippets.json" (PList []) example_app
           "legacy" legacy_code EmptyString).
  - intros d H. discriminate H.
  - reflexivity.
Defined.

Lemma load_then_save_drops_description_example :
  exists (loaded saved : App) (fs' : filesystem),
    @on_load_snippet_into_editor demo_tk example_app (Some "ABA HMAC SHA256")
    = (loaded, Returned tt)
    /\ edit_name_entry loaded = "ABA HMAC SHA256"
    /\ edit_code loaded = default_code
    /\ on_save_snippet loaded example_fs = Returned (saved, fs')
    /\ get_snippet (snippet_manager saved) "ABA HMAC SHA256"
       = Returned (snippet_entry (strip default_code) EmptyString)
    /\ get_all_names (snippet_manager saved) = Returned ["ABA HMAC SHA256"].
Proof.
  apply (load_then_save_drops_description (T := demo_tk) example_app example_fs
           default_snippets
           [("code", PStr default_code);
            ("description", PStr "Original ABA HMAC-SHA256 Implementation")]
           "ABA HMAC SHA256" default_code); reflexivity.
Defined.

Lemma extracted_order_signs_as_default_example :
  let order := key_order_of_text (gen_keys (@try_extract_keys demo_json example_app)) in
  order = Some ["username"; "request_time"]
  /\ (dict_contains example_payload "__keys_order__" = false
      -> generate example_payload example_passcode None order
         = generate example_payload example_passcode None None).
Proof.
  apply (extracted_order_signs_as_default (J := demo_json) example_app example_payload
           example_passcode None); reflexivity.
Defined.

Lemma first_run_without_write_is_empty_example :
  new_manager "snippets.json" locked_fs
  = Returned ({| filepath := "snippets.json"; snippets := PDict [] |}, locked_fs).
Proof.
  apply (first_run_without_write_is_empty locked_fs "snippets.json"); reflexivity.
Defined.

Lemma on_generate_default_short_passcode_example :
  @on_generate demo_runtime demo_json (with_passcode example_app "tooshort")
  = ([], Returned (with_output (with_passcode example_app "tooshort")
                     (@error_text demo_runtime
                        (ValueError "PassCode must be at least 16 characters long.")))).
Proof.
  apply (on_generate_default_short_passcode (R := demo_runtime) (J := demo_json)
           (with_passcode example_app "tooshort") default_snippets
           [("code", PStr default_code);
            ("description", PStr "Original ABA HMAC-SHA256 Implementation")]
           example_payload [("generate", def_function default_generate)]);
    try reflexivity.
  cbn. lia.
Defined.

Lemma on_generate_code_not_text_example :
  @on_generate demo_runtime demo_json (with_manager example_app number_manager)
  = ([], Returned (with_output (with_manager example_app number_manager)
                     (@error_text demo_runtime
                        (TypeError "exec() arg 1 must be a string, bytes or code object")))).
Proof.
  apply (on_generate_code_not_text (R := demo_runtime) (J := demo_json)
           (with_manager example_app number_manager)
           [("ABA HMAC SHA256", PDict [("code", PInt 5)])]
           [("code", PInt 5)] (PInt 5) (PDict example_payload)); try reflexivity.
  intros text H. discriminate H.
Defined.

(** ** The Python model against the interpreter's own texts *)

Example arity_messages :
  too_many_positional legacy_generate 4
    = "generate() takes 3 positional arguments but 4 were given"
  /\ too_many_positional default_generate 5
     = "generate() takes from 2 to 4 positional arguments but 5 were given"
  /\ missing_positional default_generate 1
     = "generate() missing 1 required positional argument: 'passcode'"
  /\ missing_positional picky_generate 0
     = "generate() missing 3 required positional arguments: 'payload', 'passcode', and 'api_key'".
Proof. repeat split. Qed.

Example str_of_values :
  py_str (PList [PInt 1; PStr "a"; PNone; PBool true; PFloat "1.5"; PDict [("k", PList [])]])
    = "[1, 'a', None, True, 1.5, {'k': []}]"
  /\ py_str (PInt (-3)) = "-3"
  /\ py_str (PStr "as it is") = "as it is"
  /\ py_str (PList [PStr (String (ascii_of_nat 233) (String (ascii_of_nat 10) EmptyString))])
     = "['" ++ String (ascii_of_nat 233) EmptyString ++ backslash ++ "n']".
Proof. repeat split. Qed.

Example slices_of_a_short_text :
  py_slice (Some (-16)%Z) None "short" = "short"
  /\ py_slice None (Some (-16)%Z) "short" = EmptyString.
Proof. split; reflexivity. Qed.

(** ** The hash functions against published values *)

Example sha256_tables :
  List.length SHA256.round_constants = 64
  /\ nth 0 SHA256.round_constants 0%Z = 0x428a2f98%Z
  /\ nth 63 SHA256.round_constants 0%Z = 0xc67178f2%Z
  /\ List.length SHA256.initial_hash = 8
  /\ nth 0 SHA256.initial_hash 0%Z = 0x6a09e667%Z
  /\ nth 7 SHA256.initial_hash 0%Z = 0x5be0cd19%Z.
Proof. repeat split. Qed.

Example sha256_abc :
  hex (SHA256.digest (encode_utf8 "abc"))
  = "ba7816bf8f01cfea414140de5dae2223b00361a396177a9cb410ff61f20015ad".
Proof. vm_compute. reflexivity. Qed.

Example hmac_rfc4231_case2 :
  SHA256.hmac_hexdigest (encode_utf8 "Jefe") (encode_utf8 "what do ya want for nothing?")
  = "5bdcc146bf60754e6a042426089575c75a003f089d2739839dec58b964ec3843".
Proof. vm_compute. reflexivity. Qed.

Example default_code_sha256 :
  String.length default_code = 1035
  /\ hex (SHA256.digest (encode_utf8 default_code))
     = "0a597d375ad0096e18f217ae0c61b59b173efdc7eb93be1b39dfd35151879054".
Proof. split; vm_compute; reflexivity. Qed.
